(** * python-gitmodel: the workspace transaction engine

    A shallow embedding of [gitmodel/workspace.py] together with the part of
    the object store (pygit2) and of [gitmodel/utils/git.py] that the
    workspace calls, and the properties of the specification proved or
    refuted on it. *)

From Stdlib Require Import ZArith Ascii String.
From stdpp Require Import gmap strings list fin_maps sorting.

(** ** Exceptions and the two monads

    Python exceptions are values of [exn].  A read that may raise but cannot
    change anything has type [result A]; code that mutates an object has type
    [M S A], a state monad in which the state reached so far survives a
    raise (attribute assignments done before the exception stay done). *)

Inductive exn :=
| KeyError
| TypeError
| ValueError
| AttributeError (attr : string)
| RuntimeError (msg : string)
| RepositoryError (msg : string)
| RepositoryNotFound (msg : string)
| LockWaitTimeoutExceeded (msg : string).

#[global] Instance exn_eq_dec : EqDecision exn.
Proof. solve_decision. Defined.

Definition result (A : Type) : Type := (exn + A)%type.

Definition M (S A : Type) : Type := S → result A * S.

Definition ok {A} (a : A) : result A := inr a.
Definition fail {A} (e : exn) : result A := inl e.

Definition rbind {A B} (c : result A) (k : A → result B) : result B :=
  match c with
  | inl e => inl e
  | inr a => k a
  end.

Definition ret {S A} (a : A) : M S A := λ s, (inr a, s).
Definition raise {S A} (e : exn) : M S A := λ s, (inl e, s).

Definition bind {S A B} (c : M S A) (k : A → M S B) : M S B :=
  λ s, match c s with
       | (inl e, s') => (inl e, s')
       | (inr a, s') => k a s'
       end.

(** A read lifted into the state monad. *)
Definition lift {S A} (f : S → result A) : M S A := λ s, (f s, s).

Definition get {S} : M S S := λ s, (inr s, s).
Definition modify {S} (f : S → S) : M S unit := λ s, (inr tt, f s).

Notation "'let?' x ':=' c 'in' k" := (rbind c (λ x, k))
  (at level 10, x name, c at level 100, k at level 200,
   format "'let?'  x  ':='  c  'in'  '/' k").
Notation "'let*' x ':=' c 'in' k" := (bind c (λ x, k))
  (at level 10, x name, c at level 100, k at level 200,
   format "'let*'  x  ':='  c  'in'  '/' k").
Notation "'do' c 'in' k" := (bind c (λ _, k))
  (at level 10, c at level 100, k at level 200,
   format "'do'  c  'in'  '/' k").

(** ** The object store (pygit2)

    Blobs, trees and commits are immutable and content addressed: writing
    the same content twice gives the same identifier, and a write never
    disturbs an identifier handed out before.  The object database is the
    table of the objects written so far and an [Oid] is a position in it;
    which position an object gets is opaque to the code above. *)

Module pygit2.

Abbreviation Oid := nat (only parsing).

Inductive filemode :=
| GIT_FILEMODE_BLOB
| GIT_FILEMODE_BLOB_EXECUTABLE
| GIT_FILEMODE_TREE.

#[global] Instance filemode_eq_dec : EqDecision filemode.
Proof. solve_decision. Defined.

Record Signature := {
  sig_name : string;
  sig_email : string;
  sig_time : Z;
  sig_offset : Z;
}.

#[global] Instance Signature_eq_dec : EqDecision Signature.
Proof. solve_decision. Defined.

(** What a commit object stores. *)
Record CommitData := {
  c_tree : Oid;
  c_parents : list Oid;
  c_author : Signature;
  c_committer : Signature;
  c_message : string;
}.

#[global] Instance CommitData_eq_dec : EqDecision CommitData.
Proof. solve_decision. Defined.

(** An entry of a tree is [(name, oid, mode)]; names are unique in a tree. *)
Inductive GitObject :=
| GIT_OBJ_BLOB (data : string)
| GIT_OBJ_TREE (entries : gmap string (Oid * filemode))
| GIT_OBJ_COMMIT (c : CommitData).

#[global] Instance GitObject_eq_dec : EqDecision GitObject.
Proof. solve_decision. Defined.

Record Repository := {
  odb : list GitObject;
  refs : gmap string Oid;
}.

Definition set_odb (db : list GitObject) (r : Repository) : Repository :=
  {| odb := db; refs := refs r |}.
Definition set_refs (rs : gmap string Oid) (r : Repository) : Repository :=
  {| odb := odb r; refs := rs |}.

(** The objects as Python sees them: handles that know their own oid. *)
Record Tree := { tree_oid : Oid; tree_entries : gmap string (Oid * filemode) }.
Record Commit := { commit_oid : Oid; commit_data : CommitData }.
Record Reference := { ref_name : string; ref_oid : Oid }.

Inductive Object :=
| ObjBlob (oid : Oid) (data : string)
| ObjTree (t : Tree)
| ObjCommit (c : Commit).

(** [len(tree)], which is also the truth value of a [Tree] in a condition. *)
Definition Tree_len (t : Tree) : nat := size (tree_entries t).

(** Writing an object: the identifier of that content, new or not. *)
Definition odb_write (o : GitObject) (db : list GitObject) : Oid * list GitObject :=
  match list_find (λ x, x = o) db with
  | Some (i, _) => (i, db)
  | None => (List.length db, db ++ [o])
  end.

Definition write_object (o : GitObject) : M Repository Oid :=
  λ r, (inr (odb_write o (odb r)).1, set_odb (odb_write o (odb r)).2 r).

(** [repo.create_blob(content)] *)
Definition create_blob (content : string) : M Repository Oid :=
  write_object (GIT_OBJ_BLOB content).

(** [repo[oid]] *)
Definition getitem (r : Repository) (oid : Oid) : result Object :=
  match odb r !! oid with
  | None => fail KeyError
  | Some (GIT_OBJ_BLOB d) => ok (ObjBlob oid d)
  | Some (GIT_OBJ_TREE es) => ok (ObjTree {| tree_oid := oid; tree_entries := es |})
  | Some (GIT_OBJ_COMMIT c) => ok (ObjCommit {| commit_oid := oid; commit_data := c |})
  end.

(** [repo.lookup_reference(name)], for the well-formed name of a direct
    reference: the references of the store are those that hold an oid.
    (A malformed name is refused by the store with [ValueError].) *)
Definition lookup_reference (r : Repository) (name : string) : result Reference :=
  match refs r !! name with
  | None => fail KeyError
  | Some oid => ok {| ref_name := name; ref_oid := oid |}
  end.

(** [commit.tree]: the tree object of a commit, looked up in the store. *)
Definition Commit_tree (r : Repository) (c : Commit) : result Tree :=
  match odb r !! c_tree (commit_data c) with
  | Some (GIT_OBJ_TREE es) =>
      ok {| tree_oid := c_tree (commit_data c); tree_entries := es |}
  | _ => fail KeyError
  end.

(** [repo.create_reference(name, oid)], for a well-formed name that
    conflicts with no reference of the store: refuses a name that is
    taken. *)
Definition create_reference (name : string) (oid : Oid) : M Repository Reference :=
  λ r, match refs r !! name with
       | Some _ => (inl ValueError, r)
       | None => (inr {| ref_name := name; ref_oid := oid |},
                  set_refs (<[name := oid]> (refs r)) r)
       end.

(** [ref.type] of a reference that holds an oid, and the object type the
    workspace compares it with. *)
Definition GIT_REF_OID : Z := 1.
Definition GIT_OBJ_COMMIT_type : Z := 1.
Definition Reference_type (ref : Reference) : Z := GIT_REF_OID.

(** The tree builder: [TreeBuilder()], [TreeBuilder(oid)], [insert], [write]. *)
Definition TreeBuilder (r : Repository) (src : option Oid)
  : result (gmap string (Oid * filemode)) :=
  match src with
  | None => ok ∅
  | Some oid =>
      match odb r !! oid with
      | Some (GIT_OBJ_TREE es) => ok es
      | _ => fail KeyError
      end
  end.

Definition tb_insert (e : string * Oid * filemode)
    (tb : gmap string (Oid * filemode)) : gmap string (Oid * filemode) :=
  let '(name, oid, mode) := e in <[name := (oid, mode)]> tb.

Definition tb_write (tb : gmap string (Oid * filemode)) : M Repository Oid :=
  write_object (GIT_OBJ_TREE tb).

(** [tree.diff(other)]: one delta per name whose entry differs. *)
Inductive delta := Added | Deleted | Modified.

Definition entry_delta (a b : option (Oid * filemode)) : option delta :=
  match a, b with
  | Some x, Some y => if decide (x = y) then None else Some Modified
  | Some _, None => Some Deleted
  | None, Some _ => Some Added
  | None, None => None
  end.

Record Diff := { changes : list (string * delta) }.

Definition Tree_diff (a b : Tree) : Diff :=
  {| changes := map_to_list (merge entry_delta (tree_entries a) (tree_entries b)) |}.

(** [repo.create_commit(ref, author, committer, message, tree, parents)],
    as the workspace's [commit] calls it, with the tip of [ref] as the
    parent: the tree and the parents are looked up, the commit is written
    and the reference [ref] is created or moved to it. *)
Definition is_tree (r : Repository) (oid : Oid) : bool :=
  match odb r !! oid with Some (GIT_OBJ_TREE _) => true | _ => false end.
Definition is_commit (r : Repository) (oid : Oid) : bool :=
  match odb r !! oid with Some (GIT_OBJ_COMMIT _) => true | _ => false end.

Definition create_commit (ref : string) (author committer : Signature)
    (message : string) (tree : Oid) (parents : list Oid) : M Repository Oid :=
  λ r,
    if negb (is_tree r tree) then (inl KeyError, r)
    else if negb (forallb (is_commit r) parents) then (inl KeyError, r)
    else
      let c := {| c_tree := tree; c_parents := parents; c_author := author;
                  c_committer := committer; c_message := message |} in
      let w := odb_write (GIT_OBJ_COMMIT c) (odb r) in
      (inr w.1, {| odb := w.2; refs := <[ref := w.1]> (refs r) |}).

End pygit2.

Import pygit2.

(** ** The machine: wall clock and time zone

    [time()] is read from an oracle: [wall_clock mc n] is what the [n]-th
    reading of the process returns.  The state only counts the readings. *)

Record Machine := {
  wall_clock : nat → Z;
  local_offset : Z → Z;
}.

Definition time (mc : Machine) : M nat Z :=
  λ n, (inr (wall_clock mc n), S n).

(** ** gitmodel.utils.git *)

Module git.

Definition newline : string := String "010"%char EmptyString.

(** Modelled from the spec: [make_signature] of gitmodel/utils/git.py, which
    is not among the sources.  The timestamp defaults to the wall clock, the
    offset to [default_offset] and else to the local zone's offset at the
    timestamp. *)
Definition make_signature (mc : Machine) (name email : string)
    (timestamp : option Z) (default_offset : option Z) : M nat Signature :=
  let* ts := match timestamp with
             | Some t => ret t
             | None => time mc
             end in
  let offset := match default_offset with
                | Some o => o
                | None => local_offset mc ts
                end in
  ret {| sig_name := name; sig_email := email; sig_time := ts; sig_offset := offset |}.

(** Splitting a path at the separator. *)
Fixpoint split_on (sep : ascii) (s : string) : list string :=
  match s with
  | EmptyString => [EmptyString]
  | String c rest =>
      if decide (c = sep) then EmptyString :: split_on sep rest
      else match split_on sep rest with
           | seg :: segs => String c seg :: segs
           | [] => [String c EmptyString]
           end
  end.

Fixpoint drop_empty (l : list string) : list string :=
  match l with
  | EmptyString :: l' => drop_empty l'
  | _ => l
  end.

(** Modelled from the spec: the path of [build_path] is a slash-separated
    sequence of directory names, leading and trailing separators stripped;
    the empty path is the root. *)
Definition path_segments (path : string) : list string :=
  rev (drop_empty (rev (drop_empty (split_on "/"%char path)))).

(** The directory that [segs] names below the tree with entries [es], when
    every segment exists there as a tree. *)
Fixpoint lookup_dir (r : Repository) (es : gmap string (Oid * filemode))
    (segs : list string) : result (option (gmap string (Oid * filemode))) :=
  match segs with
  | [] => ok (Some es)
  | seg :: rest =>
      match es !! seg with
      | Some (oid, GIT_FILEMODE_TREE) =>
          match odb r !! oid with
          | Some (GIT_OBJ_TREE sub) => lookup_dir r sub rest
          | _ => fail KeyError
          end
      | _ => ok None
      end
  end.

(** Modelled from the spec: the bottom-up reconstruction of [build_path].
    [up] is the path of the directory being rebuilt, deepest segment first.
    The new tree holds the directory's entries in the base tree (none when
    the directory is missing there) overwritten by name with [entries]; one
    level up the same is done with the single entry of the tree just built,
    until the root is rebuilt. *)
Fixpoint build_up (base : gmap string (Oid * filemode)) (up : list string)
    (entries : list (string * Oid * filemode)) : M Repository Oid :=
  let* dir := lift (λ r, lookup_dir r base (rev up)) in
  let tb := foldl (λ tb e, tb_insert e tb) (default ∅ dir) entries in
  let* oid := tb_write tb in
  match up with
  | [] => ret oid
  | name :: parents => build_up base parents [(name, oid, GIT_FILEMODE_TREE)]
  end.

(** Modelled from the spec: [build_path(store, path, entries, base_tree)] of
    gitmodel/utils/git.py, which is not among the sources. *)
Definition build_path (path : string) (entries : list (string * Oid * filemode))
    (base_tree : option Oid) : M Repository Oid :=
  let* base := lift (λ r, TreeBuilder r base_tree) in
  build_up base (rev (path_segments path)) entries.

(** The entries of a tree in the order the store exposes them: by name. *)
Definition name_le (a b : string * (Oid * filemode)) : Prop :=
  String.leb a.1 b.1 = true.

#[global] Instance name_le_dec a b : Decision (name_le a b).
Proof. unfold name_le. apply _. Defined.

Definition entries_in_order (es : gmap string (Oid * filemode))
  : list (string * (Oid * filemode)) :=
  merge_sort name_le (map_to_list es).

Definition indent_of (lvl : nat) : string :=
  String.concat "" (replicate (2 * lvl) " ").

Definition recursion_limit : nat := 1000.

(** Modelled from the spec: [describe_tree(store, tree_id)] of
    gitmodel/utils/git.py, which is not among the sources.  A directory is
    rendered as its name and a slash, followed by its children two spaces
    deeper; a file as its bare name.  [depth] bounds the nesting the way the
    interpreter's recursion limit does. *)
Fixpoint describe_lines (depth : nat) (r : Repository) (tree : Oid) (lvl : nat)
  : result (list string) :=
  match depth with
  | O => fail (RuntimeError "maximum recursion depth exceeded")
  | S depth' =>
      match odb r !! tree with
      | Some (GIT_OBJ_TREE es) =>
          foldr (λ e acc,
                   let '(name, (oid, mode)) := e in
                   let? below :=
                     (if decide (mode = GIT_FILEMODE_TREE)
                      then describe_lines depth' r oid (S lvl)
                      else ok []) in
                   let? rest := acc in
                   let slash := if decide (mode = GIT_FILEMODE_TREE) then "/" else "" in
                   ok ((indent_of lvl +:+ name +:+ slash) :: below ++ rest))
                (ok []) (entries_in_order es)
      | _ => fail KeyError
      end
  end.

Definition describe_tree (r : Repository) (tree : Oid) : result string :=
  let? lines := describe_lines recursion_limit r tree 0 in
  ok (String.concat newline lines).

End git.

(** ** gitmodel.workspace *)

(** The settings the workspace reads from [gitmodel.conf]. *)
Record Config := {
  DEFAULT_BRANCH : string;
  DEFAULT_GIT_USER : string * string;
  DEFAULT_TZ_OFFSET : option Z;
  LOCK_WAIT_TIMEOUT : Z;
  LOCK_WAIT_INTERVAL : Z;
}.

(** The attributes of a [Workspace] that the operations use, and the number
    of clock readings the process has taken ([ticks]). *)
Record Workspace := {
  config : Config;
  repo : Repository;
  index : option Object;
  head : string;
  ticks : nat;
}.

Definition set_repo (r : Repository) (ws : Workspace) : Workspace :=
  {| config := config ws; repo := r; index := index ws; head := head ws; ticks := ticks ws |}.
Definition set_index (i : option Object) (ws : Workspace) : Workspace :=
  {| config := config ws; repo := repo ws; index := i; head := head ws; ticks := ticks ws |}.
Definition set_head (h : string) (ws : Workspace) : Workspace :=
  {| config := config ws; repo := repo ws; index := index ws; head := h; ticks := ticks ws |}.
Definition set_ticks (n : nat) (ws : Workspace) : Workspace :=
  {| config := config ws; repo := repo ws; index := index ws; head := head ws; ticks := n |}.

(** Running store code and clock code on the workspace's repository and on
    the process clock. *)
Definition on_repo {A} (c : M Repository A) : M Workspace A :=
  λ ws, ((c (repo ws)).1, set_repo (c (repo ws)).2 ws).
Definition on_clock {A} (c : M nat A) : M Workspace A :=
  λ ws, ((c (ticks ws)).1, set_ticks (c (ticks ws)).2 ws).

(** What Python objects the code uses have besides their content. *)
Definition Object_oid (o : Object) : Oid :=
  match o with
  | ObjBlob oid _ => oid
  | ObjTree t => tree_oid t
  | ObjCommit c => commit_oid c
  end.

(** The truth value of an object in a condition: a [Tree] has a length and
    is false when empty, [None] is false, everything else is true. *)
Definition truth (o : option Object) : bool :=
  match o with
  | None => false
  | Some (ObjTree t) => negb (Tree_len t =? 0)
  | Some _ => true
  end.

(** [tree.diff(other)] on whatever [tree] and [other] are at run time. *)
Definition Object_diff (tree : Object) (other : option Object) : result Diff :=
  match tree with
  | ObjTree a =>
      match other with
      | Some (ObjTree b) => ok (Tree_diff a b)
      | _ => fail TypeError
      end
  | _ => fail (AttributeError "diff")
  end.

(** [ref.delete()] *)
Definition Reference_delete (ref : Reference) : M Repository unit :=
  modify (λ r, set_refs (delete (ref_name ref) (refs r)) r).

(** [os.path.split(p)]: the part before the last separator, without its
    trailing separators unless it consists of separators only, and the
    part after it. *)
Fixpoint span_until_sep (l : list ascii) : list ascii * list ascii :=
  match l with
  | [] => ([], [])
  | c :: rest =>
      if decide (c = "/"%char) then ([], l)
      else let '(a, b) := span_until_sep rest in (c :: a, b)
  end.

Fixpoint drop_seps (l : list ascii) : list ascii :=
  match l with
  | c :: rest => if decide (c = "/"%char) then drop_seps rest else l
  | [] => []
  end.

Definition os_path_split (p : string) : string * string :=
  let '(tail_rev, head_rev) := span_until_sep (rev (list_ascii_of_string p)) in
  let head_rev := match drop_seps head_rev with
                  | [] => head_rev
                  | stripped => stripped
                  end in
  (string_of_list_ascii (rev head_rev), string_of_list_ascii (rev tail_rev)).

(** [repo[tree][path]]: the entry a slash-separated path names below a
    tree; [Tree_bypath] takes the path by its segments. *)
Definition Tree_bypath (r : Repository) (tree : Oid) (segs : list string)
  : result (Oid * filemode) :=
  match odb r !! tree with
  | Some (GIT_OBJ_TREE es) =>
      let? dir := git.lookup_dir r es (removelast segs) in
      match dir ≫= λ d, d !! List.last segs "" with
      | Some e => ok e
      | None => fail KeyError
      end
  | _ => fail KeyError
  end.

Definition Tree_getitem (r : Repository) (tree : Oid) (path : string)
  : result (Oid * filemode) :=
  Tree_bypath r tree (git.split_on "/"%char path).

(** [repo[oid].data] *)
Definition Blob_data (r : Repository) (oid : Oid) : result string :=
  let? obj := getitem r oid in
  match obj with
  | ObjBlob _ data => ok data
  | _ => fail (AttributeError "data")
  end.

(** *** class Branch *)

Record Branch := {
  branch_ref : Reference;
  branch_oid : Oid;
  branch_commit : Commit;
  branch_tree : Tree;
}.

Definition Branch_init (r : Repository) (ref : string) : result Branch :=
  let? rf := lookup_reference r ref in
  let oid := ref_oid rf in
  let? obj := getitem r oid in
  match obj with
  | ObjCommit c =>
      let? t := Commit_tree r c in
      ok {| branch_ref := rf; branch_oid := oid; branch_commit := c; branch_tree := t |}
  | _ => fail (AttributeError "tree")
  end.

(** *** Generators used as context managers

    The code of a [@contextmanager] generator before its [yield] runs on
    entry and the code after it on normal exit.  When the block raises, the
    exception is thrown into the generator at the [yield]; with no [try]
    around the [yield] it leaves the generator at once. *)
Record contextmanager (S R : Type) := {
  cm_enter : M S R;
  cm_exit : R → M S unit;
}.
Arguments cm_enter {S R} _.
Arguments cm_exit {S R} _ _.

Definition with_ {S R A} (cm : contextmanager S R) (block : M S A) : M S A :=
  λ s, match cm_enter cm s with
       | (inl e, s1) => (inl e, s1)
       | (inr r, s1) =>
           match block s1 with
           | (inl e, s2) => (inl e, s2)
           | (inr a, s2) =>
               match cm_exit cm r s2 with
               | (inl e, s3) => (inl e, s3)
               | (inr _, s3) => (inr a, s3)
               end
           end
       end.

(** A [while] loop; [fuel] bounds the number of iterations the model runs. *)
Fixpoint while {S} (fuel : nat) (cond : M S bool) (body : M S unit) : M S unit :=
  match fuel with
  | O => raise (RuntimeError "out of fuel")
  | S fuel' =>
      let* c := cond in
      if c then (do body in while fuel' cond body) else ret tt
  end.

(** *** class Workspace *)

Section workspace.

(** The machine the process runs on, and the store's commit walker
    [repo.walk(oid, sort)], which the workspace only passes through. *)
Context (mc : Machine).
Context (sort_mode : Type) (repo_walk : Repository → Oid → sort_mode → result (list Commit)).

(** An attribute that neither the instance nor the class defines. *)
Definition no_attribute {S A} (name : string) : M S A :=
  raise (AttributeError name).

(** [self.create_blob(content)] *)
Definition create_blob (content : string) : M Workspace Oid :=
  on_repo (pygit2.create_blob content).

(** The [branch] property. *)
Definition branch (ws : Workspace) : result (option Branch) :=
  match Branch_init (repo ws) (head ws) with
  | inl KeyError => ok None
  | inl e => fail e
  | inr b => ok (Some b)
  end.

(** [self.branch.tree], [self.branch.commit.oid], [self.branch.oid]: the
    property is evaluated again and may be [None]. *)
Definition branch_attr {A} (attr : string) (f : Branch → A) (ws : Workspace) : result A :=
  let? b := branch ws in
  match b with
  | Some b => ok (f b)
  | None => fail (AttributeError attr)
  end.

Definition diff : M Workspace Diff :=
  let* b := lift branch in
  let* tree :=
    match b with
    | Some _ =>
        let* t := lift (branch_attr "tree" branch_tree) in ret (ObjTree t)
    | None =>
        let* empty_tree := on_repo (tb_write ∅) in
        lift (λ ws, getitem (repo ws) empty_tree)
    end in
  lift (λ ws, Object_diff tree (index ws)).

Definition has_changes : M Workspace bool :=
  let* d := diff in
  ret (0 <? List.length (changes d)).

Definition update_index (ref : option string) : M Workspace unit :=
  let* ws := get in
  let* pending := (if truth (index ws) then has_changes else ret false) in
  if pending then
    raise (RepositoryError "Cannot checkout a different branch with pending changes")
  else
    match ref with
    | None => raise TypeError
    | Some name =>
        do lift (λ ws, match lookup_reference (repo ws) name with
                       | inl KeyError => fail (RepositoryError ("Reference not found: " +:+ name))
                       | inl e => fail e
                       | inr _ => ok tt
                       end) in
        do modify (set_head name) in
        let* t := lift (branch_attr "tree" branch_tree) in
        modify (set_index (Some (ObjTree t)))
    end.

Definition create_branch (name : string) (start_point : option string) : M Workspace unit :=
  let* ws := get in
  let start_point := match start_point with
                     | Some sp => if decide (sp = "") then head ws else sp
                     | None => head ws
                     end in
  let* start_point_ref :=
    lift (λ ws, match lookup_reference (repo ws) start_point with
                | inl KeyError => fail (RepositoryError ("Reference not found: " +:+ start_point))
                | inl e => fail e
                | inr ref => ok ref
                end) in
  if decide (Reference_type start_point_ref ≠ GIT_OBJ_COMMIT_type) then raise ValueError
  else
    let branch_ref := "refs/heads/" +:+ name in
    do on_repo (pygit2.create_reference branch_ref (ref_oid start_point_ref)) in
    ret tt.

Definition set_branch (name : string) : M Workspace unit :=
  let ref := "refs/heads/" +:+ name in
  do lift (λ ws, match lookup_reference (repo ws) ref with
                 | inl KeyError => fail (RepositoryError ("Reference not found: " +:+ ref))
                 | inl e => fail e
                 | inr _ => ok tt
                 end) in
  update_index (Some ref).

Definition add (path : string) (entries : list (string * Oid * filemode)) : M Workspace unit :=
  let* ws := get in
  let* oid := on_repo (git.build_path path entries (Object_oid <$> index ws)) in
  let* obj := lift (λ ws, getitem (repo ws) oid) in
  modify (set_index (Some obj)).

Definition add_blob (path content : string) (mode : filemode) : M Workspace Oid :=
  let '(path, name) := os_path_split path in
  let* blob := on_repo (pygit2.create_blob content) in
  let entry := (name, blob, mode) in
  do add path [entry] in
  ret blob.

Definition create_commit (ref : string) (tree : option Object) (message : string)
    (author committer : option (string * string)) (parents : option (list Oid))
  : M Workspace Oid :=
  let* ws := get in
  let author := match author with
                | Some a => a
                | None => DEFAULT_GIT_USER (config ws)
                end in
  let committer := match committer with
                   | Some c => c
                   | None => author
                   end in
  let default_offset := DEFAULT_TZ_OFFSET (config ws) in
  let* author := on_clock (git.make_signature mc author.1 author.2 None default_offset) in
  let* committer := on_clock (git.make_signature mc committer.1 committer.2 None default_offset) in
  let* parents :=
    match parents with
    | Some ps => ret ps
    | None =>
        lift (λ ws, match lookup_reference (repo ws) ref with
                    | inl KeyError => ok []
                    | inl e => fail e
                    | inr parent_ref => ok [ref_oid parent_ref]
                    end)
    end in
  match tree with
  | None => raise (AttributeError "oid")
  | Some t => on_repo (pygit2.create_commit ref author committer message (Object_oid t) parents)
  end.

Definition commit (message : string) (author committer : option (string * string))
  : M Workspace (option Oid) :=
  let* changed := has_changes in
  if negb changed then ret None
  else
    let* b := lift branch in
    let* parents :=
      match b with
      | Some _ =>
          let* c := lift (branch_attr "commit" branch_commit) in ret [commit_oid c]
      | None => ret []
      end in
    let* ws := get in
    let* oid := create_commit (head ws) (index ws) message author committer (Some parents) in
    ret (Some oid).

Definition commit_on_success (message : string) (author committer : option (string * string))
  : contextmanager Workspace unit :=
  {| cm_enter :=
       let* changed := has_changes in
       if changed then
         raise (RepositoryError
                  "Repository has pending changes. Cannot auto-commit until pending changes have been comitted.")
       else ret tt;
     cm_exit := λ _, do commit message author committer in ret tt |}.

(** [walk] is a generator function: the call only makes the generator, the
    body runs at the first [next].  [ok None] is the end of the iteration. *)
Inductive walk_generator :=
| WalkCreated (sort : sort_mode)
| WalkRunning (rest : list Commit)
| WalkFinished.

Definition walk (sort : sort_mode) : walk_generator := WalkCreated sort.

Definition walk_yield (cs : list Commit) : result (option Commit) * walk_generator :=
  match cs with
  | [] => (ok None, WalkFinished)
  | c :: rest => (ok (Some c), WalkRunning rest)
  end.

Definition walk_next (g : walk_generator) (ws : Workspace)
  : result (option Commit) * walk_generator :=
  match g with
  | WalkCreated sort =>
      match (let? oid := branch_attr "oid" branch_oid ws in repo_walk (repo ws) oid sort) with
      | inl e => (inl e, WalkFinished)
      | inr cs => walk_yield cs
      end
  | WalkRunning rest => walk_yield rest
  | WalkFinished => (ok None, WalkFinished)
  end.

(** [list(ws.walk(sort))]: the generator run to its end. *)
Fixpoint walk_all (fuel : nat) (g : walk_generator) (ws : Workspace)
  : result (list Commit) :=
  match fuel with
  | O => fail (RuntimeError "out of fuel")
  | S fuel' =>
      match walk_next g ws with
      | (inl e, _) => fail e
      | (inr None, _) => ok []
      | (inr (Some c), g') => let? rest := walk_all fuel' g' ws in ok (c :: rest)
      end
  end.

Definition locked (id : string) (ws : Workspace) : result bool :=
  match lookup_reference (repo ws) ("refs/locks/" +:+ id) with
  | inl KeyError => ok false
  | inl e => fail e
  | inr _ => ok true
  end.

Definition lock_message (id path : string) : string :=
  "Lock wait timeout exceeded while trying to acquire lock '" +:+ id +:+ "' on " +:+ path.

(** [lock]: the module binds [time] to the function [time.time], so
    [time.sleep] is an attribute of a function; [self.path] and
    [self.create_reference] are attributes of the workspace. *)
Definition lock (fuel : nat) (id : string) : contextmanager Workspace Reference :=
  {| cm_enter :=
       let* start_time := on_clock (time mc) in
       do while fuel (lift (locked id))
            (let* now := on_clock (time mc) in
             let* ws := get in
             do (if (LOCK_WAIT_TIMEOUT (config ws) <? now - start_time)%Z then
                   let* path := no_attribute "path" in
                   raise (LockWaitTimeoutExceeded (lock_message id path))
                 else ret tt) in
             let* sleep := no_attribute (A := Z → M Workspace unit) "sleep" in
             sleep (LOCK_WAIT_INTERVAL (config ws))) in
       let* emptyblob := create_blob "" in
       let* create_reference :=
         no_attribute (A := string → Oid → M Workspace Reference) "create_reference" in
       create_reference ("refs/locks/" +:+ id) emptyblob;
     cm_exit := λ ref, on_repo (Reference_delete ref) |}.

(** [Workspace(repo_path)], for the repositories found at the paths of
    [disk]. *)
Definition Workspace_init (disk : gmap string Repository) (cfg : Config)
    (repo_path : string) : result Workspace :=
  match disk !! repo_path with
  | None => fail (RepositoryNotFound ("Git repository not found at " +:+ repo_path))
  | Some r =>
      let ws := {| config := cfg; repo := r; index := None;
                   head := DEFAULT_BRANCH cfg; ticks := 0 |} in
      let '(res, ws') :=
        match lookup_reference r (head ws) with
        | inl KeyError =>
            (let* oid := on_repo (tb_write ∅) in
             let* obj := lift (λ ws, getitem (repo ws) oid) in
             modify (set_index (Some obj))) ws
        | inl e => (inl e, ws)
        | inr _ => update_index (Some (head ws)) ws
        end in
      let? _ := res in ok ws'
  end.

End workspace.

Arguments WalkCreated {sort_mode} _.
Arguments WalkRunning {sort_mode} _.
Arguments WalkFinished {sort_mode}.
Arguments walk {sort_mode} _.
Arguments walk_yield {sort_mode} _.
Arguments walk_next {sort_mode} _ _ _.
Arguments walk_all {sort_mode} _ _ _ _.

(** ** gitmodel.test.test_utils

    The tests of the tree utilities, run on a store; each returns the
    values its assertions compare. *)

Module test_utils.

Definition test_desc_describe_tree : string :=
  "foo/" +:+ git.newline +:+ "  bar/" +:+ git.newline +:+ "    baz/" +:+ git.newline +:+
  "      test2.txt" +:+ git.newline +:+ "    test.txt".

Definition test_desc_build_path : string :=
  "foo/" +:+ git.newline +:+ "  bar/" +:+ git.newline +:+ "    baz/" +:+ git.newline +:+
  "      qux.txt".

(** [test_describe_tree]: returns [desc]. *)
Definition test_describe_tree : M Repository string :=
  let* test2_txt := pygit2.create_blob "TEST 2" in
  let baz_tb := tb_insert ("test2.txt", test2_txt, GIT_FILEMODE_BLOB) ∅ in
  let* test_txt := pygit2.create_blob "TEST" in
  let* baz := tb_write baz_tb in
  let bar_tb := tb_insert ("test.txt", test_txt, GIT_FILEMODE_BLOB) ∅ in
  let bar_tb := tb_insert ("baz", baz, GIT_FILEMODE_TREE) bar_tb in
  let* bar := tb_write bar_tb in
  let foo_tb := tb_insert ("bar", bar, GIT_FILEMODE_TREE) ∅ in
  let* foo := tb_write foo_tb in
  let root_tb := tb_insert ("foo", foo, GIT_FILEMODE_TREE) ∅ in
  let* root := tb_write root_tb in
  lift (λ r, git.describe_tree r root).

(** [test_build_path_update]: returns [(new_content, desc)]. *)
Definition test_build_path_update : M Repository (string * string) :=
  let path := "/foo/bar/baz/" in
  let* blob_oid := pygit2.create_blob "TEST CONTENT" in
  let entries := [("qux.txt", blob_oid, GIT_FILEMODE_BLOB)] in
  let* tree1 := git.build_path path entries None in
  let* blob_oid := pygit2.create_blob "UPDATED CONTENT" in
  let entries := [("qux.txt", blob_oid, GIT_FILEMODE_BLOB)] in
  let* tree2 := git.build_path path entries (Some tree1) in
  let* entry := lift (λ r, Tree_getitem r tree2 "foo/bar/baz/qux.txt") in
  let* new_content := lift (λ r, Blob_data r entry.1) in
  let* desc := lift (λ r, git.describe_tree r tree2) in
  ret (new_content, desc).

End test_utils.

(** * The vocabulary of the properties *)

(** The tree written for a branch that has no commit yet. *)
Definition empty_tree_of (r : Repository) : Tree :=
  {| tree_oid := (odb_write (GIT_OBJ_TREE ∅) (odb r)).1; tree_entries := ∅ |}.

Definition with_empty_tree (ws : Workspace) : Workspace :=
  set_repo (set_odb (odb_write (GIT_OBJ_TREE ∅) (odb (repo ws))).2 (repo ws)) ws.

(** The tree the index is compared with. *)
Definition branch_tree_or_empty (ws : Workspace) : result Tree :=
  let? b := branch ws in
  ok (match b with
      | Some b => branch_tree b
      | None => empty_tree_of (repo ws)
      end).

(** ** Integrity of the store and of the workspace

    A reference points to a stored object, the tree of a stored commit is
    stored, and the tree the index holds came from the store. *)

Record repo_ok (r : Repository) : Prop := {
  refs_stored : ∀ name oid, refs r !! name = Some oid → is_Some (odb r !! oid);
  commit_tree_stored :
    ∀ oid c, odb r !! oid = Some (GIT_OBJ_COMMIT c) → is_tree r (c_tree c) = true;
}.

Definition index_stored (ws : Workspace) : Prop :=
  ∀ t, index ws = Some (ObjTree t) →
       odb (repo ws) !! tree_oid t = Some (GIT_OBJ_TREE (tree_entries t)).

Record ws_ok (ws : Workspace) : Prop := {
  ws_repo_ok : repo_ok (repo ws);
  ws_index_stored : index_stored ws;
}.

(** A checker for the integrity of a workspace. *)
Definition ws_ok_check (ws : Workspace) : bool :=
  bool_decide (map_Forall (λ _ oid, is_Some (odb (repo ws) !! oid)) (refs (repo ws)))
  && forallb (λ o, match o with
                   | GIT_OBJ_COMMIT c => is_tree (repo ws) (c_tree c)
                   | _ => true
                   end) (odb (repo ws))
  && match index ws with
     | Some (ObjTree t) =>
         bool_decide (odb (repo ws) !! tree_oid t = Some (GIT_OBJ_TREE (tree_entries t)))
     | _ => true
     end.

(** ** What the operations are compared with *)

(** The identity a signature is built from, and the signature
    [make_signature] builds from it at the [n]-th reading of the clock. *)
Definition signature_at (mc : Machine) (cfg : Config) (who : string * string) (n : nat)
  : Signature :=
  {| sig_name := who.1; sig_email := who.2;
     sig_time := wall_clock mc n;
     sig_offset := default (local_offset mc (wall_clock mc n)) (DEFAULT_TZ_OFFSET cfg) |}.

(** The commit object that [commit] writes on a workspace with changes. *)
Definition commit_written (mc : Machine) (ws : Workspace) (t : Tree) (message : string)
    (author committer : option (string * string)) : CommitData :=
  let a := default (DEFAULT_GIT_USER (config ws)) author in
  let c := default a committer in
  {| c_tree := tree_oid t;
     c_parents := match refs (repo ws) !! head ws with
                  | Some tip => [tip]
                  | None => []
                  end;
     c_author := signature_at mc (config ws) a (ticks ws);
     c_committer := signature_at mc (config ws) c (S (ticks ws));
     c_message := message |}.

Definition identity (sig : Signature) : string * string := (sig_name sig, sig_email sig).

Definition pending_changes_error : exn :=
  RepositoryError "Cannot checkout a different branch with pending changes".

Definition reference_not_found (ref : string) : exn :=
  RepositoryError ("Reference not found: " +:+ ref).

(** ** Reference names the store accepts

    The store refuses a malformed reference name (the empty one, one with
    a space, ...) with [ValueError], and a name of which an existing
    reference is a directory, or which is a directory of one.  A plain
    name is one every version of the store takes as well formed: at least
    two components separated by single slashes, each made of ASCII
    letters, digits and underscores.  The properties that hand the store a
    name the caller chose are stated for names that are available. *)
Definition plain_char (c : ascii) : bool :=
  let n := nat_of_ascii c in
  (48 <=? n) && (n <=? 57) || (65 <=? n) && (n <=? 90) || (97 <=? n) && (n <=? 122)
  || (n =? 95).

Definition plain_component (s : string) : bool :=
  negb (String.eqb s "") && forallb plain_char (list_ascii_of_string s).

Definition plain_ref_name (name : string) : bool :=
  let segs := git.split_on "/" name in
  (2 <=? List.length segs) && forallb plain_component segs.

Definition ref_conflict (a b : string) : bool :=
  String.prefix (a +:+ "/") b || String.prefix (b +:+ "/") a.

(** A name under which a reference can be created in [r]. *)
Definition name_available (r : Repository) (name : string) : bool :=
  plain_ref_name name
  && bool_decide (refs r !! name = None)
  && bool_decide (map_Forall (λ other _, ref_conflict name other = false) (refs r)).

(** The guard of [update_index]: the index is consulted first, and
    [has_changes] only when the index counts as true. *)
Definition pending (ws : Workspace) : result bool * Workspace :=
  if truth (index ws) then has_changes ws else (ok false, ws).

(** The attribute error [lock] stops at when the lock is taken: [path] when
    the second reading of the clock is already past the budget, [sleep]
    otherwise. *)
Definition contended_attribute (mc : Machine) (ws : Workspace) : string :=
  if (LOCK_WAIT_TIMEOUT (config ws)
      <? wall_clock mc (S (ticks ws)) - wall_clock mc (ticks ws))%Z
  then "path" else "sleep".

(** ** A repository to run the code on *)

Definition empty_repo : Repository := {| odb := []; refs := ∅ |}.

Definition cfg0 : Config :=
  {| DEFAULT_BRANCH := "refs/heads/master";
     DEFAULT_GIT_USER := ("gitmodel", "gitmodel@local");
     DEFAULT_TZ_OFFSET := None;
     LOCK_WAIT_TIMEOUT := 30;
     LOCK_WAIT_INTERVAL := 1 |}.

Definition mc0 : Machine :=
  {| wall_clock := λ n, (1356998400 + Z.of_nat n)%Z; local_offset := λ _, 60%Z |}.

(** A machine whose clock advances by a minute at every reading. *)
Definition mc_slow : Machine :=
  {| wall_clock := λ n, (1356998400 + 60 * Z.of_nat n)%Z; local_offset := λ _, 60%Z |}.

Definition disk0 : gmap string Repository := {["/srv/data.git" := empty_repo]}.

(** The workspace opened on the empty repository. *)
Definition ws_fresh : Workspace :=
  {| config := cfg0;
     repo := {| odb := [GIT_OBJ_TREE ∅]; refs := ∅ |};
     index := Some (ObjTree {| tree_oid := 0; tree_entries := ∅ |});
     head := "refs/heads/master";
     ticks := 0 |}.

(** The same workspace after a blob was added at [docs/readme.txt]. *)
Definition ws_dirty : Workspace :=
  ((let* blob := create_blob "hello" in
    add "docs" [("readme.txt", blob, GIT_FILEMODE_BLOB)]) ws_fresh).2.

(** ... and after that change was committed. *)
Definition ws_committed : Workspace :=
  (commit mc0 "add the readme" None None ws_dirty).2.

(** The committed workspace, with a second branch and a new pending blob. *)
Definition ws_pending : Workspace :=
  ((do create_branch "dev" None in
    let* blob := create_blob "notes" in
    add "docs" [("notes.txt", blob, GIT_FILEMODE_BLOB)]) ws_committed).2.

(** The workspace opened on the empty repository, whose branch then
    received a commit that did not come from its index, and a second
    branch: the index is still the empty tree. *)
Definition ws_stale : Workspace :=
  ((let* blob := create_blob "hello" in
    let* oid := on_repo (git.build_path "" [("readme.txt", blob, GIT_FILEMODE_BLOB)] None) in
    let* tree := lift (λ ws, getitem (repo ws) oid) in
    let* ws := get in
    do create_commit mc0 (head ws) (Some tree) "import" None None None in
    create_branch "dev" None) ws_fresh).2.

(** The fresh workspace with the lock [jobs] taken. *)
Definition ws_locked : Workspace :=
  ((let* blob := create_blob "" in
    on_repo (pygit2.create_reference "refs/locks/jobs" blob)) ws_fresh).2.

(** The committed workspace, with a branch name that points to a blob
    instead of a commit. *)
Definition ws_blob_ref : Workspace :=
  ((let* blob := create_blob "notes" in
    on_repo (pygit2.create_reference "refs/heads/notes" blob)) ws_committed).2.

(** Two blocks for a [commit_on_success] scope: one adds a draft, the
    other adds it and then fails. *)
Definition add_draft : M Workspace Oid :=
  add_blob "docs/draft.txt" "draft" GIT_FILEMODE_BLOB.

Definition add_draft_then_fail : M Workspace unit :=
  do add_draft in raise ValueError.

(** The disk on which the repository of [ws_committed] is found. *)
Definition disk1 : gmap string Repository := {["/srv/data.git" := repo ws_committed]}.

(** A walker for the store that yields the commit it is started at. *)
Definition GIT_SORT_TIME : Z := 2.

Definition walk_tip (r : Repository) (oid : Oid) (sort : Z) : result (list Commit) :=
  let? obj := getitem r oid in
  match obj with
  | ObjCommit c => ok [c]
  | _ => fail ValueError
  end.

(** * Properties *)

(** ** The object database *)

Section odb_facts.

Implicit Types (o : GitObject) (db : list GitObject).

Lemma odb_write_lookup o db :
  (odb_write o db).2 !! (odb_write o db).1 = Some o.
Proof.
  unfold odb_write. destruct (list_find _ db) as [[i x]|] eqn:E; simpl.
  - apply list_find_Some in E as (Hi & -> & _). done.
  - rewrite lookup_app_r by lia. by rewrite Nat.sub_diag.
Qed.

Lemma odb_write_prefix o db : db `prefix_of` (odb_write o db).2.
Proof.
  unfold odb_write. destruct (list_find _ db) as [[i x]|]; simpl.
  - done.
  - by apply prefix_app_r.
Qed.

Lemma prefix_lookup_Some' db db' (i : nat) o :
  db !! i = Some o → db `prefix_of` db' → db' !! i = Some o.
Proof. intros H [k ->]. by apply lookup_app_l_Some. Qed.

Lemma odb_write_mono o db (i : nat) x :
  db !! i = Some x → (odb_write o db).2 !! i = Some x.
Proof. intros H. eapply prefix_lookup_Some'; [done | apply odb_write_prefix]. Qed.

(** Once an object is stored, writing it again returns the identifier it
    has, in every later state of the database, and stores nothing. *)
Lemma odb_write_again o db db' :
  (odb_write o db).2 `prefix_of` db' →
  odb_write o db' = ((odb_write o db).1, db').
Proof.
  unfold odb_write. destruct (list_find _ db) as [[i x]|] eqn:E; simpl.
  - intros [k ->]. by rewrite (list_find_app_l _ _ _ _ _ E).
  - intros [k ->]. rewrite <- (assoc_L (++)).
    assert (list_find (λ x, x = o) (db ++ [o] ++ k) = Some (List.length db, o)) as ->; [|done].
    apply list_find_Some. split_and!.
    + rewrite lookup_app_r by lia. by rewrite Nat.sub_diag.
    + done.
    + intros j y Hj Hlt. rewrite lookup_app_l in Hj by lia.
      eapply list_find_None in E. rewrite Forall_forall in E.
      apply E. by eapply list_elem_of_lookup_2.
Qed.

Lemma odb_write_stored o db (i : nat) :
  db !! i = Some o → (odb_write o db).2 = db.
Proof.
  intros H. unfold odb_write.
  destruct (list_find _ db) as [[j x]|] eqn:E; [done|].
  exfalso. eapply list_find_None in E. rewrite Forall_forall in E.
  eapply E; [by eapply list_elem_of_lookup_2 | done].
Qed.

End odb_facts.

(** ** Reading the branch and the difference *)

Section workspace_facts.

Context (mc : Machine).
Context (sort_mode : Type) (repo_walk : Repository → Oid → sort_mode → result (list Commit)).

Implicit Types (ws : Workspace) (r : Repository).

Lemma diff_unfold ws :
  diff ws =
    match branch ws with
    | inl e => (inl e, ws)
    | inr (Some b) => (Object_diff (ObjTree (branch_tree b)) (index ws), ws)
    | inr None =>
        (Object_diff (ObjTree (empty_tree_of (repo ws))) (index ws), with_empty_tree ws)
    end.
Proof.
  unfold diff, bind, lift at 1.
  destruct (branch ws) as [e|[b|]] eqn:Hb; [done| |].
  - unfold lift, branch_attr. rewrite Hb. simpl. done.
  - unfold on_repo, tb_write, write_object, lift. simpl.
    unfold getitem. simpl. rewrite odb_write_lookup. done.
Qed.

Lemma has_changes_unfold ws :
  has_changes ws =
    (let? d := (diff ws).1 in ok (0 <? List.length (changes d)), (diff ws).2).
Proof.
  unfold has_changes, bind, ret. by destruct (diff ws) as [[e|d] ws'].
Qed.

Lemma is_commit_write_tree es db (oid : nat) :
  match (odb_write (GIT_OBJ_TREE es) db).2 !! oid with
  | Some (GIT_OBJ_COMMIT _) => true
  | _ => false
  end = match db !! oid with Some (GIT_OBJ_COMMIT _) => true | _ => false end.
Proof.
  unfold odb_write. destruct (list_find _ db) as [[i x]|]; simpl; [done|].
  destruct (decide (oid < List.length db)) as [Hlt|Hge].
  - by rewrite lookup_app_l.
  - rewrite lookup_app_r by lia. rewrite (lookup_ge_None_2 db) by lia.
    by destruct (oid - List.length db) as [|[|?]].
Qed.

(** What [diff] can change: nothing but the object database, which it may
    extend by the empty tree. *)
Lemma diff_frame ws :
  index (diff ws).2 = index ws ∧ head (diff ws).2 = head ws ∧
  refs (repo (diff ws).2) = refs (repo ws) ∧
  config (diff ws).2 = config ws ∧ ticks (diff ws).2 = ticks ws ∧
  odb (repo ws) `prefix_of` odb (repo (diff ws).2) ∧
  (∀ oid, is_commit (repo (diff ws).2) oid = is_commit (repo ws) oid).
Proof.
  rewrite diff_unfold. destruct (branch ws) as [e|[b|]]; simpl; try done.
  split_and!; try done.
  - apply odb_write_prefix.
  - intros oid. unfold is_commit. simpl. apply is_commit_write_tree.
Qed.

Lemma has_changes_frame ws :
  index (has_changes ws).2 = index ws ∧ head (has_changes ws).2 = head ws ∧
  refs (repo (has_changes ws).2) = refs (repo ws) ∧
  config (has_changes ws).2 = config ws ∧ ticks (has_changes ws).2 = ticks ws ∧
  odb (repo ws) `prefix_of` odb (repo (has_changes ws).2) ∧
  (∀ oid, is_commit (repo (has_changes ws).2) oid = is_commit (repo ws) oid).
Proof. rewrite has_changes_unfold. apply diff_frame. Qed.

Lemma diff_result ws :
  (diff ws).1 = (let? t := branch_tree_or_empty ws in Object_diff (ObjTree t) (index ws)).
Proof.
  rewrite diff_unfold. unfold branch_tree_or_empty.
  by destruct (branch ws) as [e|[b|]].
Qed.

(** C8. [diff()] returns the difference between the tree of the current
    branch, or the empty tree when the branch has no commit yet, and the
    index; whatever it returns or raises, it leaves the index, the tracked
    branch name and every reference of the store as they were (the store
    keeps every object it had). *)
Theorem diff_reads_only ws :
  (diff ws).1 = (let? t := branch_tree_or_empty ws in Object_diff (ObjTree t) (index ws)) ∧
  index (diff ws).2 = index ws ∧
  head (diff ws).2 = head ws ∧
  refs (repo (diff ws).2) = refs (repo ws) ∧
  odb (repo ws) `prefix_of` odb (repo (diff ws).2).
Proof.
  split; [apply diff_result|].
  by destruct (diff_frame ws) as (?&?&?&?&?&?&?).
Qed.

(** C5. On a workspace without changes [commit] returns [None]; no commit
    object is created and the index, the tracked branch name and the
    references are unchanged. *)
Theorem commit_without_changes ws message author committer :
  (has_changes ws).1 = ok false →
  (commit mc message author committer ws).1 = ok None ∧
  index (commit mc message author committer ws).2 = index ws ∧
  head (commit mc message author committer ws).2 = head ws ∧
  refs (repo (commit mc message author committer ws).2) = refs (repo ws) ∧
  (∀ oid, is_commit (repo (commit mc message author committer ws).2) oid
          = is_commit (repo ws) oid).
Proof.
  intros H. unfold commit, bind.
  destruct (has_changes_frame ws) as (Hi & Hh & Hr & _ & _ & _ & Hc).
  destruct (has_changes ws) as [res ws'] eqn:E. simpl in *. subst res. simpl.
  done.
Qed.

Lemma branch_ref_None ws :
  refs (repo ws) !! head ws = None → branch ws = ok None.
Proof.
  intros H. unfold branch, Branch_init, lookup_reference. by rewrite H.
Qed.

Lemma branch_ok_Some ws b :
  branch ws = ok (Some b) →
  refs (repo ws) !! head ws = Some (branch_oid b) ∧
  commit_oid (branch_commit b) = branch_oid b ∧
  odb (repo ws) !! branch_oid b = Some (GIT_OBJ_COMMIT (commit_data (branch_commit b))) ∧
  tree_oid (branch_tree b) = c_tree (commit_data (branch_commit b)) ∧
  odb (repo ws) !! tree_oid (branch_tree b) = Some (GIT_OBJ_TREE (tree_entries (branch_tree b))).
Proof.
  unfold branch, Branch_init, lookup_reference, getitem, Commit_tree.
  destruct (refs (repo ws) !! head ws) as [tip|]; simpl; [|done].
  destruct (odb (repo ws) !! tip) as [[d|es|c]|] eqn:Htip; simpl; try done.
  destruct (odb (repo ws) !! c_tree c) as [[d|es|c']|] eqn:Htree; simpl; try done.
  intros [= <-]. simpl. done.
Qed.

Lemma branch_ok_None ws :
  repo_ok (repo ws) → branch ws = ok None → refs (repo ws) !! head ws = None.
Proof.
  intros [Hrefs Htrees].
  unfold branch, Branch_init, lookup_reference, getitem, Commit_tree.
  destruct (refs (repo ws) !! head ws) as [tip|] eqn:Hhead; simpl; [|done].
  destruct (Hrefs _ _ Hhead) as [o Ho]. rewrite Ho.
  destruct o as [d|es|c]; simpl; try done.
  specialize (Htrees _ _ Ho). unfold is_tree in Htrees.
  destruct (odb (repo ws) !! c_tree c) as [[d|es|c']|]; simpl; done.
Qed.

(** A branch that resolves when its commit and tree are stored. *)
Lemma branch_resolves ws tip c es :
  refs (repo ws) !! head ws = Some tip →
  odb (repo ws) !! tip = Some (GIT_OBJ_COMMIT c) →
  odb (repo ws) !! c_tree c = Some (GIT_OBJ_TREE es) →
  branch ws = ok (Some {| branch_ref := {| ref_name := head ws; ref_oid := tip |};
                          branch_oid := tip;
                          branch_commit := {| commit_oid := tip; commit_data := c |};
                          branch_tree := {| tree_oid := c_tree c; tree_entries := es |} |}).
Proof.
  intros Hh Hc Ht. unfold branch, Branch_init, lookup_reference, getitem, Commit_tree.
  rewrite Hh. simpl. rewrite Hc. simpl. rewrite Ht. done.
Qed.

(** A tree does not differ from itself. *)
Lemma Tree_diff_same t : changes (Tree_diff t t) = [].
Proof.
  unfold Tree_diff. simpl.
  assert (merge entry_delta (tree_entries t) (tree_entries t) = ∅) as ->.
  { apply map_eq. intros k. rewrite lookup_merge, lookup_empty.
    destruct (tree_entries t !! k) as [x|]; simpl; [|done].
    by rewrite decide_True. }
  apply map_to_list_empty.
Qed.

(** A difference lists a change exactly when the entries differ. *)
Lemma Tree_diff_nil a b :
  changes (Tree_diff a b) = [] ↔ tree_entries a = tree_entries b.
Proof.
  unfold Tree_diff. simpl. rewrite map_to_list_empty_iff. split.
  - intros H. apply map_eq. intros k.
    assert (merge entry_delta (tree_entries a) (tree_entries b) !! k = None) as Hk
      by (by rewrite H, lookup_empty).
    rewrite lookup_merge in Hk.
    destruct (tree_entries a !! k) as [x|], (tree_entries b !! k) as [y|];
      simpl in Hk; try done.
    by case_decide; simplify_eq.
  - intros H. apply map_eq. intros k. rewrite lookup_merge, lookup_empty, H.
    destruct (tree_entries b !! k) as [x|]; simpl; [|done].
    by rewrite decide_True.
Qed.

(** ** Committing *)

Lemma make_signature_now cfg who n :
  git.make_signature mc who.1 who.2 None (DEFAULT_TZ_OFFSET cfg) n
  = (inr (signature_at mc cfg who n), S n).
Proof. unfold git.make_signature, bind, time, ret, signature_at. by destruct (DEFAULT_TZ_OFFSET cfg). Qed.

Lemma create_commit_unfold ws ref o message author committer ps :
  create_commit mc ref (Some o) message author committer (Some ps) ws =
    let a := default (DEFAULT_GIT_USER (config ws)) author in
    let c := default a committer in
    let res := pygit2.create_commit ref (signature_at mc (config ws) a (ticks ws))
                 (signature_at mc (config ws) c (S (ticks ws))) message (Object_oid o) ps
                 (repo ws) in
    (res.1, {| config := config ws; repo := res.2; index := index ws; head := head ws;
               ticks := S (S (ticks ws)) |}).
Proof.
  unfold create_commit, bind, get, on_clock, on_repo, ret.
  set (a := default (DEFAULT_GIT_USER (config ws)) author).
  set (c := default a committer).
  replace (match author with Some a0 => a0 | None => DEFAULT_GIT_USER (config ws) end)
    with a by (by destruct author).
  replace (match committer with Some c0 => c0 | None => a end)
    with c by (by destruct committer).
  rewrite (make_signature_now (config ws) a (ticks ws)). cbn [fst snd set_ticks ticks config].
  rewrite (make_signature_now (config ws) c (S (ticks ws))). cbn [fst snd]. done.
Qed.

Lemma store_create_commit_ok r ref a c message tree ps :
  is_tree r tree = true → forallb (is_commit r) ps = true →
  pygit2.create_commit ref a c message tree ps r =
    let data := {| c_tree := tree; c_parents := ps; c_author := a; c_committer := c;
                   c_message := message |} in
    let w := odb_write (GIT_OBJ_COMMIT data) (odb r) in
    (inr w.1, {| odb := w.2; refs := <[ref := w.1]> (refs r) |}).
Proof. intros Ht Hp. unfold pygit2.create_commit. by rewrite Ht, Hp. Qed.

(** What [has_changes() == true] says about the workspace. *)
Lemma has_changes_true_inv ws :
  (has_changes ws).1 = ok true →
  ∃ t base, index ws = Some (ObjTree t) ∧
    branch_tree_or_empty ws = ok base ∧
    tree_entries base ≠ tree_entries t.
Proof.
  rewrite has_changes_unfold, diff_result. simpl. unfold branch_tree_or_empty.
  destruct (branch ws) as [e|b]; simpl; [done|].
  set (base := match b with Some b0 => branch_tree b0 | None => _ end).
  destruct (index ws) as [[oid d|t|c]|]; simpl; try done.
  intros [= H]. exists t, base. split_and!; try done.
  intros Heq. apply Tree_diff_nil in Heq. unfold Tree_diff in Heq. simpl in Heq.
  rewrite Heq in H. done.
Qed.

Lemma has_changes_false_inv ws :
  (has_changes ws).1 = ok false →
  ∃ t base, index ws = Some (ObjTree t) ∧
    branch_tree_or_empty ws = ok base ∧
    tree_entries base = tree_entries t.
Proof.
  rewrite has_changes_unfold, diff_result. simpl. unfold branch_tree_or_empty.
  destruct (branch ws) as [e|b]; simpl; [done|].
  set (base := match b with Some b0 => branch_tree b0 | None => _ end).
  destruct (index ws) as [[oid d|t|c]|]; simpl; try done.
  intros [= H]. exists t, base. split_and!; try done.
  apply Tree_diff_nil. unfold Tree_diff. simpl. by destruct (map_to_list _).
Qed.

Lemma commit_dirty_spec ws message author committer :
  ws_ok ws → (has_changes ws).1 = ok true →
  ∃ t, index ws = Some (ObjTree t) ∧
    let w := odb_write (GIT_OBJ_COMMIT (commit_written mc ws t message author committer))
               (odb (repo (has_changes ws).2)) in
    commit mc message author committer ws =
      (ok (Some w.1),
       {| config := config ws;
          repo := {| odb := w.2; refs := <[head ws := w.1]> (refs (repo ws)) |};
          index := index ws; head := head ws; ticks := S (S (ticks ws)) |}).
Proof.
  intros [Hrepo Hidx] Hdirty.
  destruct (has_changes_true_inv ws Hdirty) as (t & base & Hi & Hbase & _).
  exists t. split; [done|]. simpl.
  destruct (has_changes_frame ws) as (Hi1 & Hh1 & Hr1 & Hc1 & Ht1 & Hpre & _).
  assert (∃ ps, (let? b := branch (has_changes ws).2 in
                 match b with
                 | Some _ => let? c := branch_attr "commit" branch_commit (has_changes ws).2 in
                             ok [commit_oid c]
                 | None => ok []
                 end) = ok ps ∧
                ps = match refs (repo ws) !! head ws with Some tip => [tip] | None => [] end ∧
                forallb (is_commit (repo (has_changes ws).2)) ps = true) as (ps & Hps & Hpsv & Hpsc).
  { unfold branch_tree_or_empty in Hbase.
    destruct (branch ws) as [e|[b|]] eqn:Hb; simpl in Hbase; [done| |].
    - assert ((has_changes ws).2 = ws) as ->.
      { rewrite has_changes_unfold, diff_unfold, Hb. done. }
      unfold branch_attr. rewrite Hb. simpl.
      destruct (branch_ok_Some ws b Hb) as (Hhead & Hco & Hst & _).
      rewrite Hhead, Hco. eexists. split_and!; try done.
      simpl. unfold is_commit. by rewrite Hst.
    - pose proof (branch_ok_None ws Hrepo Hb) as Hnone.
      rewrite branch_ref_None by (by rewrite Hr1, Hh1).
      simpl. rewrite Hnone. by eexists. }
  unfold commit, bind.
  destruct (has_changes ws) as [res ws1] eqn:E. simpl in *. subst res. simpl.
  destruct (branch ws1) as [e|[b|]]; simpl in Hps; [done| |];
    [destruct (branch_attr "commit" branch_commit ws1) as [e|c]; simpl in Hps; [done|] |];
    injection Hps as Hps; rewrite Hps; clear Hps; unfold ret at 1.
  all: rewrite Hi1, Hi, create_commit_unfold; simpl.
  all: rewrite store_create_commit_ok; [| |done].
  all: try (unfold is_tree; by rewrite (prefix_lookup_Some' _ _ _ _ (Hidx t Hi) Hpre)).
  all: simpl; unfold commit_written, ret; rewrite Hh1, Hr1, Hc1, Ht1, ?Hi1, ?Hi; subst ps; done.
Qed.


(** ** Switching the branch *)

Lemma set_branch_missing ws name :
  refs (repo ws) !! ("refs/heads/" +:+ name) = None →
  set_branch name ws = (fail (reference_not_found ("refs/heads/" +:+ name)), ws).
Proof.
  intros H. unfold set_branch, bind, lift, lookup_reference. by rewrite H.
Qed.

Lemma set_branch_found ws name oid :
  refs (repo ws) !! ("refs/heads/" +:+ name) = Some oid →
  set_branch name ws = update_index (Some ("refs/heads/" +:+ name)) ws.
Proof.
  intros H. unfold set_branch, bind, lift, lookup_reference. by rewrite H.
Qed.

Lemma pending_frame ws :
  index (pending ws).2 = index ws ∧ head (pending ws).2 = head ws ∧
  refs (repo (pending ws).2) = refs (repo ws) ∧
  odb (repo ws) `prefix_of` odb (repo (pending ws).2).
Proof.
  unfold pending. destruct (truth (index ws)); [|done].
  by destruct (has_changes_frame ws) as (?&?&?&?&?&?&?).
Qed.

Lemma update_index_pending ws ref :
  (pending ws).1 = ok true →
  update_index (Some ref) ws = (fail pending_changes_error, (pending ws).2).
Proof.
  unfold pending, update_index, bind, get. intros H.
  destruct (truth (index ws)); [|done].
  destruct (has_changes ws) as [res ws1]. simpl in H. by subst res.
Qed.

Lemma update_index_switch ws ref tip c es :
  (pending ws).1 = ok false →
  refs (repo ws) !! ref = Some tip →
  odb (repo ws) !! tip = Some (GIT_OBJ_COMMIT c) →
  odb (repo ws) !! c_tree c = Some (GIT_OBJ_TREE es) →
  update_index (Some ref) ws =
    (ok tt, set_index (Some (ObjTree {| tree_oid := c_tree c; tree_entries := es |}))
              (set_head ref (pending ws).2)).
Proof.
  intros H Href Hc Ht.
  destruct (pending_frame ws) as (Hi & Hh & Hr & Hpre).
  assert (branch (set_head ref (pending ws).2) =
            ok (Some {| branch_ref := {| ref_name := ref; ref_oid := tip |};
                        branch_oid := tip;
                        branch_commit := {| commit_oid := tip; commit_data := c |};
                        branch_tree := {| tree_oid := c_tree c; tree_entries := es |} |}))
    as Hb.
  { apply (branch_resolves (set_head ref (pending ws).2)); simpl.
    - by rewrite Hr.
    - by eapply prefix_lookup_Some'.
    - by eapply prefix_lookup_Some'. }
  revert H Hr Hb. unfold pending, update_index, bind, get.
  destruct (truth (index ws)).
  - destruct (has_changes ws) as [res ws1]. simpl. intros -> Hr Hb.
    unfold ok, lookup_reference. simpl. rewrite Hr, Href. simpl.
    unfold branch_attr. rewrite Hb. done.
  - simpl. intros _ Hr Hb.
    unfold ok, lookup_reference. simpl. rewrite Href. simpl.
    unfold branch_attr. rewrite Hb. done.
Qed.

(** With changes pending and an index that counts as true, [set_branch]
    to a branch that exists is refused with the pending-changes error and
    leaves the index and the tracked branch name as they were. *)
Lemma set_branch_dirty_refuses ws name tip :
  (has_changes ws).1 = ok true → truth (index ws) = true →
  refs (repo ws) !! ("refs/heads/" +:+ name) = Some tip →
  (set_branch name ws).1 = fail pending_changes_error ∧
  index (set_branch name ws).2 = index ws ∧
  head (set_branch name ws).2 = head ws.
Proof.
  intros Hdirty Htruth Href. rewrite (set_branch_found _ _ _ Href).
  destruct (pending_frame ws) as (Hi & Hh & Hr & Hpre).
  rewrite update_index_pending; [done|]. unfold pending. by rewrite Htruth.
Qed.

(** C2, the code at an empty index.  The guard of [update_index] is
    [self.index and self.has_changes()], and a tree without entries is
    false: on a workspace whose index is the empty tree the guard is
    skipped although [has_changes()] is true.  [set_branch] to a branch
    that points to a commit then returns, replaces the index by the tree
    of that commit and tracks the branch; it raises no pending-changes
    error. *)
Theorem set_branch_empty_index ws name t tip c es :
  (has_changes ws).1 = ok true →
  index ws = Some (ObjTree t) → tree_entries t = ∅ →
  refs (repo ws) !! ("refs/heads/" +:+ name) = Some tip →
  odb (repo ws) !! tip = Some (GIT_OBJ_COMMIT c) →
  odb (repo ws) !! c_tree c = Some (GIT_OBJ_TREE es) →
  set_branch name ws
  = (ok tt, set_index (Some (ObjTree {| tree_oid := c_tree c; tree_entries := es |}))
              (set_head ("refs/heads/" +:+ name) ws)) ∧
  (set_branch name ws).1 ≠ fail pending_changes_error ∧
  head (set_branch name ws).2 = "refs/heads/" +:+ name ∧
  index (set_branch name ws).2
    = Some (ObjTree {| tree_oid := c_tree c; tree_entries := es |}).
Proof.
  intros _ Hi He Href Hc Ht.
  assert (pending ws = (ok false, ws)) as Hp.
  { unfold pending, truth, Tree_len. by rewrite Hi, He, map_size_empty. }
  rewrite (set_branch_found _ _ _ Href).
  rewrite (update_index_switch ws _ tip c es); rewrite ?Hp; done.
Qed.

(** ** Signatures of a commit *)


(** ** Walking the history *)

(** C10. When the branch reference does not exist, [walk()] returns a
    generator whose first step raises [AttributeError]: the [branch]
    property is [None] and has no [oid].  It does not end the iteration
    the way an empty sequence would. *)
Theorem walk_without_branch ws sort :
  refs (repo ws) !! head ws = None →
  branch ws = ok None ∧
  walk_next repo_walk (walk sort) ws = (fail (AttributeError "oid"), WalkFinished) ∧
  (walk_next repo_walk (walk sort) ws).1 ≠ ok None.
Proof.
  intros H. pose proof (branch_ref_None ws H) as Hb.
  split; [done|]. unfold walk_next, walk, branch_attr. rewrite Hb. simpl. done.
Qed.

(** ** Scopes *)

Lemma with_enter_raises {S R A} (cm : contextmanager S R) (block : M S A) s e s1 :
  cm_enter cm s = (fail e, s1) → with_ cm block s = (fail e, s1).
Proof. unfold with_. by intros ->. Qed.

(** A block that raises leaves the scope with its own state: the code
    after the [yield] is not run. *)
Lemma with_block_raises {S R A} (cm : contextmanager S R) (block : M S A) s x s1 e s2 :
  cm_enter cm s = (ok x, s1) → block s1 = (fail e, s2) →
  with_ cm block s = (fail e, s2).
Proof. unfold with_. by intros -> ->. Qed.

Lemma with_block_returns {S R A} (cm : contextmanager S R) (block : M S A) s x s1 a s2 :
  cm_enter cm s = (ok x, s1) → block s1 = (ok a, s2) →
  with_ cm block s = (let? _ := (cm_exit cm x s2).1 in ok a, (cm_exit cm x s2).2).
Proof.
  unfold with_. intros -> ->. simpl. by destruct (cm_exit cm x s2) as [[e|[]] s3].
Qed.

Lemma locked_unfold id ws :
  locked id ws = ok (bool_decide (is_Some (refs (repo ws) !! ("refs/locks/" +:+ id)))).
Proof.
  unfold locked, lookup_reference.
  destruct (refs (repo ws) !! _) as [oid|].
  - by rewrite bool_decide_eq_true_2.
  - rewrite bool_decide_eq_false_2; [done|]. by intros [? ?].
Qed.

(** The code after the [yield] of [lock] deletes the reference it is given. *)
Lemma lock_exit_deletes fuel id ref ws :
  cm_exit (lock mc fuel id) ref ws
  = (ok tt, set_repo (set_refs (delete (ref_name ref) (refs (repo ws))) (repo ws)) ws).
Proof. reflexivity. Qed.

Lemma lock_taken ws fuel id :
  locked id ws = ok true →
  cm_enter (lock mc (S fuel) id) ws
  = (fail (AttributeError (contended_attribute mc ws)), set_ticks (S (S (ticks ws))) ws).
Proof.
  intros H. unfold lock, cm_enter, bind, on_clock, time, while, lift, get, bind.
  cbn [fst snd].
  change (locked id (set_ticks (S (ticks ws)) ws)) with (locked id ws). rewrite H.
  unfold contended_attribute, no_attribute, raise. simpl.
  by destruct (_ <? _)%Z.
Qed.

(** C4, the code at a taken lock.  With the lock reference present, the
    first round of the wait loop already raises [AttributeError], after two
    readings of the clock: nothing sleeps, nothing is retried and
    [LockWaitTimeoutExceeded] is not raised.  The store is as it was, so
    the lock is not acquired. *)
Theorem lock_contended ws fuel id :
  locked id ws = ok true →
  (cm_enter (lock mc (S fuel) id) ws).1 = fail (AttributeError (contended_attribute mc ws)) ∧
  (∀ msg, (cm_enter (lock mc (S fuel) id) ws).1 ≠ fail (LockWaitTimeoutExceeded msg)) ∧
  repo (cm_enter (lock mc (S fuel) id) ws).2 = repo ws ∧
  ticks (cm_enter (lock mc (S fuel) id) ws).2 = S (S (ticks ws)).
Proof.
  intros H. rewrite (lock_taken ws fuel id H). by split_and!.
Qed.

Lemma lock_free ws fuel id :
  locked id ws = ok false →
  cm_enter (lock mc (S fuel) id) ws
  = (fail (AttributeError "create_reference"),
     set_repo (pygit2.create_blob "" (repo ws)).2 (set_ticks (S (ticks ws)) ws)).
Proof.
  intros H. unfold lock, cm_enter, bind, on_clock, time, while, lift, get, bind.
  cbn [fst snd].
  change (locked id (set_ticks (S (ticks ws)) ws)) with (locked id ws). rewrite H.
  done.
Qed.

(** No scope of [lock] is ever entered: the
    generator raises [AttributeError] before its [yield], whether the lock
    is free or taken, so the block does not run, and no reference is
    created or deleted. *)
Lemma lock_never_enters ws fuel id (A : Type) (block : M Workspace A) :
  ∃ attr,
    (cm_enter (lock mc (S fuel) id) ws).1 = fail (AttributeError attr) ∧
    with_ (lock mc (S fuel) id) block ws
      = (fail (AttributeError attr), (cm_enter (lock mc (S fuel) id) ws).2) ∧
    refs (repo (with_ (lock mc (S fuel) id) block ws).2) = refs (repo ws).
Proof.
  pose proof (locked_unfold id ws) as Hl.
  destruct (bool_decide _) in Hl.
  - exists (contended_attribute mc ws).
    pose proof (lock_taken ws fuel id Hl) as He.
    rewrite (with_enter_raises _ block ws _ _ He), He. done.
  - exists "create_reference".
    pose proof (lock_free ws fuel id Hl) as He.
    rewrite (with_enter_raises _ block ws _ _ He), He. done.
Qed.

(** The scope of [commit_on_success] commits on normal exit only. *)
Lemma commit_on_success_block_raises ws message author committer
    (A : Type) (block : M Workspace A) e ws2 :
  (has_changes ws).1 = ok false →
  block (has_changes ws).2 = (fail e, ws2) →
  with_ (commit_on_success mc message author committer) block ws = (fail e, ws2).
Proof.
  intros Hclean Hblock. eapply with_block_raises; [|exact Hblock].
  unfold commit_on_success, cm_enter, bind.
  destruct (has_changes ws) as [res ws1]. simpl in *. by subst res.
Qed.

End workspace_facts.

Example Workspace_init_fresh : Workspace_init disk0 cfg0 "/srv/data.git" = ok ws_fresh.
Proof. vm_compute. reflexivity. Qed.

Example Workspace_init_missing :
  Workspace_init disk0 cfg0 "/tmp"
  = fail (RepositoryNotFound "Git repository not found at /tmp").
Proof. vm_compute. reflexivity. Qed.

Example ws_dirty_has_changes : (has_changes ws_dirty).1 = ok true.
Proof. vm_compute. reflexivity. Qed.

Example ws_committed_clean : (has_changes ws_committed).1 = ok false.
Proof. vm_compute. reflexivity. Qed.

Lemma ws_ok_check_sound ws : ws_ok_check ws = true → ws_ok ws.
Proof.
  unfold ws_ok_check. rewrite !andb_true_iff, bool_decide_eq_true.
  intros [[Hrefs Hcs] Hi]. split; [split|].
  - intros name oid H. by apply (Hrefs name oid).
  - intros oid c H. rewrite forallb_forall in Hcs.
    apply (Hcs (GIT_OBJ_COMMIT c)). apply list_elem_of_In. by eapply list_elem_of_lookup_2.
  - intros t Ht. rewrite Ht in Hi. by apply bool_decide_eq_true in Hi.
Qed.


Lemma commit_without_changes_witness :
  (commit mc0 "nothing" None None ws_committed).1 = ok None ∧
  index (commit mc0 "nothing" None None ws_committed).2 = index ws_committed ∧
  head (commit mc0 "nothing" None None ws_committed).2 = head ws_committed ∧
  refs (repo (commit mc0 "nothing" None None ws_committed).2) = refs (repo ws_committed) ∧
  (∀ oid, is_commit (repo (commit mc0 "nothing" None None ws_committed).2) oid
          = is_commit (repo ws_committed) oid).
Proof.
  apply (commit_without_changes mc0 ws_committed "nothing" None None).
  vm_compute. reflexivity.
Defined.

(** ** Building a path *)

Section build_path_facts.

Implicit Types (r : Repository) (base : gmap string (Oid * filemode)).

Lemma lookup_dir_mono r r' base segs x :
  git.lookup_dir r base segs = ok x →
  odb r `prefix_of` odb r' →
  git.lookup_dir r' base segs = ok x.
Proof.
  intros H Hpre. revert base H.
  induction segs as [|seg rest IH]; intros base H; simpl in *; [done|].
  destruct (base !! seg) as [[oid [| |]]|]; try done.
  destruct (odb r !! oid) as [[d|sub|c]|] eqn:Hoid; try done.
  rewrite (prefix_lookup_Some' _ _ _ _ Hoid Hpre). by apply IH.
Qed.

Lemma build_up_unfold base up entries :
  git.build_up base up entries =
    (let* dir := lift (λ r, git.lookup_dir r base (rev up)) in
     let tb := foldl (λ tb e, tb_insert e tb) (default ∅ dir) entries in
     let* oid := tb_write tb in
     match up with
     | [] => ret oid
     | name :: parents => git.build_up base parents [(name, oid, GIT_FILEMODE_TREE)]
     end).
Proof. by destruct up. Qed.

(** One level of the reconstruction, when the directory reads as [dir]. *)
Lemma build_up_step base up entries r dir :
  git.lookup_dir r base (rev up) = ok dir →
  git.build_up base up entries r =
    let tb := foldl (λ tb e, tb_insert e tb) (default ∅ dir) entries in
    let w := odb_write (GIT_OBJ_TREE tb) (odb r) in
    match up with
    | [] => (ok w.1, set_odb w.2 r)
    | name :: parents =>
        git.build_up base parents [(name, w.1, GIT_FILEMODE_TREE)] (set_odb w.2 r)
    end.
Proof.
  intros H. rewrite build_up_unfold. unfold bind, lift, tb_write, write_object.
  rewrite H. by destruct up.
Qed.

Lemma build_up_inv base up entries r oid r1 :
  git.build_up base up entries r = (ok oid, r1) →
  ∃ dir, git.lookup_dir r base (rev up) = ok dir.
Proof.
  rewrite build_up_unfold. unfold bind, lift.
  destruct (git.lookup_dir r base (rev up)) as [e|dir]; [done|]. by exists dir.
Qed.

(** A reconstruction that returned returns the same identifier in every
    later state of the store, and writes nothing there. *)
Lemma build_up_again base up : ∀ entries r oid r1,
  git.build_up base up entries r = (ok oid, r1) →
  odb r `prefix_of` odb r1 ∧ refs r1 = refs r ∧
  ∀ r2, odb r1 `prefix_of` odb r2 → git.build_up base up entries r2 = (ok oid, r2).
Proof.
  induction up as [|name parents IH]; intros entries r oid r1 H.
  - destruct (build_up_inv _ _ _ _ _ _ H) as [dir Hdir].
    rewrite (build_up_step _ _ _ _ _ Hdir) in H. simpl in H.
    injection H as <- <-. split_and!; [apply odb_write_prefix|done|].
    intros r2 Hpre. cbn [odb set_odb] in Hpre.
    rewrite (build_up_step _ _ _ _ dir); [|eapply lookup_dir_mono; [done|]].
    + cbn zeta. rewrite (odb_write_again _ _ _ Hpre). cbn [fst snd]. by destruct r2.
    + etrans; [apply odb_write_prefix|done].
  - destruct (build_up_inv _ _ _ _ _ _ H) as [dir Hdir].
    rewrite (build_up_step _ _ _ _ _ Hdir) in H. simpl in H.
    destruct (IH _ _ _ _ H) as (Hpre1 & Hrefs & Hagain). simpl in Hpre1, Hrefs.
    split_and!; [etrans; [apply odb_write_prefix|done]|done|].
    intros r2 Hpre.
    rewrite (build_up_step _ _ _ _ dir); [|eapply lookup_dir_mono; [done|]].
    + cbn zeta. rewrite (odb_write_again _ _ (odb r2)) by (by etrans).
      cbn [fst snd]. replace (set_odb (odb r2) r2) with r2 by (by destruct r2).
      by apply Hagain.
    + etrans; [apply odb_write_prefix|]. by etrans.
Qed.

Lemma TreeBuilder_mono r r' src tb :
  TreeBuilder r src = ok tb → odb r `prefix_of` odb r' → TreeBuilder r' src = ok tb.
Proof.
  unfold TreeBuilder. destruct src as [oid|]; [|done].
  destruct (odb r !! oid) as [[d|es|c]|] eqn:Hoid; try done.
  intros H Hpre. by rewrite (prefix_lookup_Some' _ _ _ _ Hoid Hpre).
Qed.

(** C6. A call of [build_path] that returned an identifier returns the same
    identifier when it is made again with the same path, entries and base
    tree, on the store as the first call left it and on every later state
    of it. *)
Theorem build_path_idempotent r path entries base_tree oid r1 :
  git.build_path path entries base_tree r = (ok oid, r1) →
  git.build_path path entries base_tree r1 = (ok oid, r1) ∧
  ∀ r2, odb r1 `prefix_of` odb r2 →
        git.build_path path entries base_tree r2 = (ok oid, r2).
Proof.
  unfold git.build_path, bind, lift. intros H.
  destruct (TreeBuilder r base_tree) as [e|base] eqn:Hbase; [done|].
  destruct (build_up_again _ _ _ _ _ _ H) as (Hpre & _ & Hagain).
  assert (∀ r2, odb r1 `prefix_of` odb r2 →
            match TreeBuilder r2 base_tree with
            | inl e => (inl e, r2)
            | inr a => git.build_up a (rev (git.path_segments path)) entries r2
            end = (ok oid, r2)) as Hall.
  { intros r2 Hpre2. rewrite (TreeBuilder_mono r r2 _ _ Hbase) by (by etrans).
    by apply Hagain. }
  split; [by apply Hall|done].
Qed.

(** Without a base tree [build_path] always returns. *)
Lemma lookup_dir_empty r segs :
  git.lookup_dir r ∅ segs = ok (match segs with [] => Some ∅ | _ => None end).
Proof. destruct segs; simpl; [done|]. by rewrite lookup_empty. Qed.

Lemma build_up_fresh up : ∀ entries r,
  ∃ oid r1, git.build_up ∅ up entries r = (ok oid, r1).
Proof.
  induction up as [|name parents IH]; intros entries r.
  - eexists _, _. by rewrite (build_up_step _ _ _ _ _ (lookup_dir_empty _ _)).
  - pose proof (build_up_step ∅ (name :: parents) entries r _ (lookup_dir_empty _ _)) as Hs.
    cbn zeta iota in Hs.
    match type of Hs with
    | _ = git.build_up _ _ ?e ?r' => destruct (IH e r') as (oid & r1 & H)
    end.
    exists oid, r1. by rewrite Hs.
Qed.

Lemma build_path_fresh r path entries :
  ∃ oid r1, git.build_path path entries None r = (ok oid, r1).
Proof. unfold git.build_path, bind, lift. simpl. apply build_up_fresh. Qed.

End build_path_facts.

(** ** Describing a tree *)

Section describe_facts.

Implicit Types (r : Repository).

Lemma entries_in_order_singleton name (v : Oid * filemode) :
  git.entries_in_order {[name := v]} = [(name, v)].
Proof. unfold git.entries_in_order. by rewrite map_to_list_singleton. Qed.

Lemma describe_lines_dir depth r (tree : Oid) lvl name (child : Oid) :
  odb r !! tree = Some (GIT_OBJ_TREE {[name := (child, GIT_FILEMODE_TREE)]}) →
  git.describe_lines (S depth) r tree lvl =
    (let? below := git.describe_lines depth r child (S lvl) in
     ok ((git.indent_of lvl +:+ name +:+ "/") :: below)).
Proof.
  intros H. cbn [git.describe_lines]. rewrite H, entries_in_order_singleton.
  cbn [foldr]. rewrite decide_True by done.
  destruct (git.describe_lines depth r child (S lvl)) as [e|below]; [done|].
  simpl. by rewrite app_nil_r.
Qed.

Lemma describe_lines_file depth r (tree : Oid) lvl name (blob : Oid) :
  odb r !! tree = Some (GIT_OBJ_TREE {[name := (blob, GIT_FILEMODE_BLOB)]}) →
  git.describe_lines (S depth) r tree lvl = ok [git.indent_of lvl +:+ name +:+ ""].
Proof.
  intros H. cbn [git.describe_lines]. rewrite H, entries_in_order_singleton.
  cbn [foldr]. by rewrite decide_False by done.
Qed.

(** C7. Writing the single entry [qux.txt] at [/foo/bar/baz/] without a
    base tree and describing the tree that results gives the four lines
    [foo/], [bar/], [baz/] and [qux.txt], each two spaces deeper than the
    one before; this holds in every store and for every blob. *)
Theorem build_path_describe r (blob : Oid) :
  ∃ oid r1,
    git.build_path "/foo/bar/baz/" [("qux.txt", blob, GIT_FILEMODE_BLOB)] None r
      = (ok oid, r1) ∧
    git.describe_tree r1 oid
      = ok ("foo/" +:+ git.newline +:+ "  bar/" +:+ git.newline +:+
            "    baz/" +:+ git.newline +:+ "      qux.txt").
Proof.
  set (w3 := odb_write (GIT_OBJ_TREE {["qux.txt" := (blob, GIT_FILEMODE_BLOB)]}) (odb r)).
  set (w2 := odb_write (GIT_OBJ_TREE {["baz" := (w3.1, GIT_FILEMODE_TREE)]}) w3.2).
  set (w1 := odb_write (GIT_OBJ_TREE {["bar" := (w2.1, GIT_FILEMODE_TREE)]}) w2.2).
  set (w0 := odb_write (GIT_OBJ_TREE {["foo" := (w1.1, GIT_FILEMODE_TREE)]}) w1.2).
  exists w0.1, (set_odb w0.2 r). split.
  { unfold git.build_path, bind, lift. cbn [TreeBuilder].
    change (rev (git.path_segments "/foo/bar/baz/")) with ["baz"; "bar"; "foo"].
    unfold ok at 1. cbn iota.
    do 4 (rewrite (build_up_step _ _ _ _ _ (lookup_dir_empty _ _)); cbn zeta iota).
    cbn [rev app default foldl tb_insert odb set_odb]. by rewrite !insert_empty. }
  unfold git.describe_tree, git.recursion_limit.
  rewrite (describe_lines_dir _ _ _ _ "foo" w1.1) by apply odb_write_lookup.
  rewrite (describe_lines_dir _ _ _ _ "bar" w2.1)
    by (apply odb_write_mono, odb_write_lookup).
  rewrite (describe_lines_dir _ _ _ _ "baz" w3.1)
    by (do 2 apply odb_write_mono; apply odb_write_lookup).
  rewrite (describe_lines_file _ _ _ _ "qux.txt" blob)
    by (do 3 apply odb_write_mono; apply odb_write_lookup).
  reflexivity.
Qed.

End describe_facts.

Example ws_pending_ok : ws_ok_check ws_pending = true.
Proof. vm_compute. reflexivity. Qed.

Example ws_stale_ok : ws_ok_check ws_stale = true.
Proof. vm_compute. reflexivity. Qed.

(** [set_branch] on workspaces with changes, run.  On [ws_pending] a
    switch to a branch that does not exist raises the reference-not-found
    error and one to [dev] the pending-changes error.  On [ws_stale],
    whose index is empty, the switch to [dev] goes through and replaces
    the index and the tracked branch name. *)
Example set_branch_dirty_run :
  ((has_changes ws_pending).1 = ok true ∧
   (set_branch "release" ws_pending).1 = fail (reference_not_found "refs/heads/release") ∧
   (set_branch "dev" ws_pending).1 = fail pending_changes_error) ∧
  ((has_changes ws_stale).1 = ok true ∧
   set_branch "dev" ws_stale
     = (ok tt, set_index (Some (ObjTree {| tree_oid := 2;
                                           tree_entries := {["readme.txt" := (1, GIT_FILEMODE_BLOB)]} |}))
                 (set_head "refs/heads/dev" ws_stale)) ∧
   index (set_branch "dev" ws_stale).2 ≠ index ws_stale ∧
   head (set_branch "dev" ws_stale).2 ≠ head ws_stale).
Proof.
  split; split_and!; try (vm_compute; reflexivity); vm_compute; intros [=].
Qed.

Lemma set_branch_empty_index_witness :
  set_branch "dev" ws_stale
  = (ok tt, set_index (Some (ObjTree {| tree_oid := 2;
                                        tree_entries := {["readme.txt" := (1, GIT_FILEMODE_BLOB)]} |}))
              (set_head ("refs/heads/" +:+ "dev") ws_stale)) ∧
  (set_branch "dev" ws_stale).1 ≠ fail pending_changes_error ∧
  head (set_branch "dev" ws_stale).2 = "refs/heads/" +:+ "dev" ∧
  index (set_branch "dev" ws_stale).2
    = Some (ObjTree {| tree_oid := 2;
                       tree_entries := {["readme.txt" := (1, GIT_FILEMODE_BLOB)]} |}).
Proof.
  eapply (set_branch_empty_index ws_stale "dev" _ _
            {| c_tree := 2; c_parents := []; c_author := _; c_committer := _;
               c_message := _ |});
    vm_compute; reflexivity.
Defined.

(** The switch on a workspace without changes, run. *)
Example set_branch_clean :
  (has_changes ws_committed).1 = ok false ∧
  (set_branch "dev" (create_branch "dev" None ws_committed).2).1 = ok tt ∧
  head (set_branch "dev" (create_branch "dev" None ws_committed).2).2 = "refs/heads/dev" ∧
  index (set_branch "dev" (create_branch "dev" None ws_committed).2).2 = index ws_committed.
Proof. split_and!; vm_compute; reflexivity. Qed.



Lemma walk_without_branch_witness :
  branch ws_fresh = ok None ∧
  walk_next walk_tip (walk GIT_SORT_TIME) ws_fresh
    = (fail (AttributeError "oid"), WalkFinished) ∧
  (walk_next walk_tip (walk GIT_SORT_TIME) ws_fresh).1 ≠ ok None.
Proof.
  apply (walk_without_branch Z walk_tip ws_fresh GIT_SORT_TIME).
  vm_compute. reflexivity.
Defined.

(** With a branch, the walk starts. *)
Example walk_with_branch :
  ∃ c, walk_next walk_tip (walk GIT_SORT_TIME) ws_committed = (ok (Some c), WalkRunning []) ∧
       c_message (commit_data c) = "add the readme".
Proof. eexists. split; vm_compute; reflexivity. Qed.

Lemma lock_contended_witness :
  (cm_enter (lock mc0 (S 10) "jobs") ws_locked).1
    = fail (AttributeError (contended_attribute mc0 ws_locked)) ∧
  (∀ msg, (cm_enter (lock mc0 (S 10) "jobs") ws_locked).1
          ≠ fail (LockWaitTimeoutExceeded msg)) ∧
  repo (cm_enter (lock mc0 (S 10) "jobs") ws_locked).2 = repo ws_locked ∧
  ticks (cm_enter (lock mc0 (S 10) "jobs") ws_locked).2 = S (S (ticks ws_locked)).
Proof.
  apply (lock_contended mc0 ws_locked 10 "jobs").
  vm_compute. reflexivity.
Defined.

(** The lock, run: taken, it stops at [time.sleep]; taken and past the
    budget, at [self.path]; free, at [self.create_reference]. *)
Example lock_taken_run :
  (with_ (lock mc0 5 "jobs") (ret tt) ws_locked).1 = fail (AttributeError "sleep") ∧
  (with_ (lock mc_slow 5 "jobs") (ret tt) ws_locked).1 = fail (AttributeError "path") ∧
  (with_ (lock mc0 5 "jobs") (ret tt) ws_fresh).1 = fail (AttributeError "create_reference") ∧
  locked "jobs" (with_ (lock mc0 5 "jobs") (ret tt) ws_fresh).2 = ok false.
Proof. split_and!; vm_compute; reflexivity. Qed.

Lemma build_path_idempotent_witness :
  git.build_path "/foo/bar/baz/" [("qux.txt", 1, GIT_FILEMODE_BLOB)] (Some 0)
    (git.build_path "/foo/bar/baz/" [("qux.txt", 1, GIT_FILEMODE_BLOB)] (Some 0)
       (repo ws_dirty)).2
  = (ok 7, (git.build_path "/foo/bar/baz/" [("qux.txt", 1, GIT_FILEMODE_BLOB)] (Some 0)
             (repo ws_dirty)).2) ∧
  ∀ r2, odb (git.build_path "/foo/bar/baz/" [("qux.txt", 1, GIT_FILEMODE_BLOB)] (Some 0)
               (repo ws_dirty)).2 `prefix_of` odb r2 →
        git.build_path "/foo/bar/baz/" [("qux.txt", 1, GIT_FILEMODE_BLOB)] (Some 0) r2
        = (ok 7, r2).
Proof.
  apply (build_path_idempotent (repo ws_dirty) "/foo/bar/baz/"
           [("qux.txt", 1, GIT_FILEMODE_BLOB)] (Some 0) 7).
  vm_compute. reflexivity.
Defined.

(** ** The integrity of the workspace is kept

    A workspace opened on an intact store is intact, and [add], [commit]
    and [set_branch] keep it so, whatever they return or raise. *)

Section integrity_facts.

Context (mc : Machine).

Implicit Types (ws : Workspace) (r : Repository).

Lemma odb_write_inv o db (oid : nat) x :
  (odb_write o db).2 !! oid = Some x → db !! oid = Some x ∨ x = o.
Proof.
  unfold odb_write. destruct (list_find _ db) as [[i y]|]; simpl; [by left|].
  intros H. apply lookup_app_Some in H as [H|[_ H]]; [by left|right].
  apply list_lookup_singleton_Some in H as [_ ->]. done.
Qed.

Lemma is_tree_mono r r' (oid : nat) :
  is_tree r oid = true → odb r `prefix_of` odb r' → is_tree r' oid = true.
Proof.
  unfold is_tree. intros H Hpre.
  destruct (odb r !! oid) as [[d|es|c]|] eqn:Hoid; try done.
  by rewrite (prefix_lookup_Some' _ _ _ _ Hoid Hpre).
Qed.

(** A store stays intact when objects are written whose tree, for a
    commit, is stored, and references are set to stored objects. *)
Lemma repo_ok_grow r r' :
  repo_ok r → odb r `prefix_of` odb r' →
  (∀ oid c, odb r' !! oid = Some (GIT_OBJ_COMMIT c) →
            odb r !! oid = Some (GIT_OBJ_COMMIT c) ∨ is_tree r' (c_tree c) = true) →
  (∀ name oid, refs r' !! name = Some oid →
               refs r !! name = Some oid ∨ is_Some (odb r' !! oid)) →
  repo_ok r'.
Proof.
  intros [Hrefs Htrees] Hpre Hc Hr. split.
  - intros name oid H. destruct (Hr _ _ H) as [Hold|Hnew]; [|done].
    destruct (Hrefs _ _ Hold) as [x Hx]. exists x. by eapply prefix_lookup_Some'.
  - intros oid c H. destruct (Hc _ _ H) as [Hold|Hnew]; [|done].
    eapply is_tree_mono; [|done]. by eapply Htrees.
Qed.

Lemma index_stored_grow ws ws' :
  index_stored ws → index ws' = index ws →
  odb (repo ws) `prefix_of` odb (repo ws') → index_stored ws'.
Proof.
  intros H Hi Hpre t Ht. rewrite Hi in Ht. eapply prefix_lookup_Some'; [|done]. by apply H.
Qed.

Lemma has_changes_state ws :
  (has_changes ws).2 = ws ∨ (has_changes ws).2 = with_empty_tree ws.
Proof.
  rewrite has_changes_unfold, diff_unfold.
  destruct (branch ws) as [e|[b|]]; simpl; auto.
Qed.

Lemma with_empty_tree_ok ws : ws_ok ws → ws_ok (with_empty_tree ws).
Proof.
  intros [Hrepo Hidx]. split.
  - apply (repo_ok_grow (repo ws)); simpl; [done|apply odb_write_prefix| |by left].
    intros oid c H. by destruct (odb_write_inv _ _ _ _ H) as [?|?]; [left|].
  - eapply index_stored_grow; [done|done|apply odb_write_prefix].
Qed.

Lemma has_changes_preserves_ok ws : ws_ok ws → ws_ok (has_changes ws).2.
Proof.
  intros Hok. destruct (has_changes_state ws) as [->| ->]; [done|].
  by apply with_empty_tree_ok.
Qed.

Lemma commit_not_dirty ws message author committer :
  (has_changes ws).1 ≠ ok true →
  (commit mc message author committer ws).2 = (has_changes ws).2.
Proof.
  unfold commit, bind. by destruct (has_changes ws) as [[e|[|]] ws1].
Qed.

Lemma commit_preserves_ok ws message author committer :
  ws_ok ws → ws_ok (commit mc message author committer ws).2.
Proof.
  intros Hok.
  destruct (decide ((has_changes ws).1 = ok true)) as [Hdirty|Hclean].
  - destruct (commit_dirty_spec mc ws message author committer Hok Hdirty) as (t & Hi & Hc).
    simpl in Hc. rewrite Hc. clear Hc.
    pose proof (has_changes_preserves_ok ws Hok) as [Hrepo1 Hidx1].
    destruct (has_changes_frame ws) as (Hi1 & _ & Hr1 & _ & _ & Hpre & _).
    assert (odb (repo (has_changes ws).2) !! tree_oid t = Some (GIT_OBJ_TREE (tree_entries t)))
      as Ht by (apply Hidx1; by rewrite Hi1).
    split; simpl.
    + apply (repo_ok_grow (repo (has_changes ws).2)); simpl;
        [done|apply odb_write_prefix| |].
      * intros oid c H. destruct (odb_write_inv _ _ _ _ H) as [?|Heq]; [by left|right].
        injection Heq as ->. simpl. unfold is_tree. simpl.
        by rewrite (odb_write_mono _ _ _ _ Ht).
      * intros name oid H. rewrite lookup_insert in H. case_decide.
        -- injection H as <-. right. rewrite odb_write_lookup. by eexists.
        -- left. by rewrite Hr1.
    + intros t' Ht'. simpl in *. rewrite Hi in Ht'. injection Ht' as <-.
      by apply odb_write_mono.
  - rewrite (commit_not_dirty _ _ _ _ Hclean). by apply has_changes_preserves_ok.
Qed.

Lemma set_head_ok ws h : ws_ok ws → ws_ok (set_head h ws).
Proof. by intros [? ?]. Qed.

Lemma update_index_preserves_ok ws ref :
  ws_ok ws → ws_ok (update_index ref ws).2.
Proof.
  intros Hok. unfold update_index, bind, get.
  replace ((if truth (index ws) then has_changes else ret false) ws) with (pending ws)
    by (unfold pending; by destruct (truth (index ws))).
  assert (ws_ok (pending ws).2) as Hok1.
  { unfold pending. destruct (truth (index ws)); [by apply has_changes_preserves_ok|done]. }
  destruct (pending ws) as [[e|[|]] ws1]; simpl in *; try done.
  destruct ref as [name|]; [|done].
  destruct (lookup_reference (repo ws1) name) as [[]|rf]; simpl; try done.
  unfold branch_attr.
  destruct (branch (set_head name ws1)) as [e|[b|]] eqn:Hb; simpl;
    try (by apply set_head_ok).
  destruct (branch_ok_Some _ _ Hb) as (_ & _ & _ & _ & Ht). simpl in Ht.
  destruct Hok1 as [Hrepo1 Hidx1]. split; [done|].
  intros t [= <-]. done.
Qed.

Lemma set_branch_preserves_ok ws name :
  ws_ok ws → ws_ok (set_branch name ws).2.
Proof.
  intros Hok. unfold set_branch, bind, lift at 1.
  destruct (lookup_reference (repo ws) _) as [[]|rf]; simpl; try done.
  by apply update_index_preserves_ok.
Qed.

(** [build_path] only writes trees, whatever it returns or raises, and
    the tree it returns is stored. *)
Lemma build_up_frame base up : ∀ entries r,
  odb r `prefix_of` odb (git.build_up base up entries r).2 ∧
  refs (git.build_up base up entries r).2 = refs r ∧
  (∀ i c, odb (git.build_up base up entries r).2 !! i = Some (GIT_OBJ_COMMIT c) →
          odb r !! i = Some (GIT_OBJ_COMMIT c)) ∧
  (∀ oid, (git.build_up base up entries r).1 = ok oid →
          is_tree (git.build_up base up entries r).2 oid = true).
Proof.
  induction up as [|name parents IH]; intros entries r.
  - destruct (git.lookup_dir r base (rev [])) as [e|dir] eqn:Hdir.
    + rewrite build_up_unfold. unfold bind, lift. rewrite Hdir. by split_and!.
    + rewrite (build_up_step _ _ _ _ _ Hdir). simpl. split_and!; [apply odb_write_prefix|done| |].
      * intros i c Hi. by destruct (odb_write_inv _ _ _ _ Hi).
      * intros oid [= <-]. unfold is_tree. simpl. by rewrite odb_write_lookup.
  - destruct (git.lookup_dir r base (rev (name :: parents))) as [e|dir] eqn:Hdir.
    + rewrite build_up_unfold. unfold bind, lift. rewrite Hdir. by split_and!.
    + rewrite (build_up_step _ _ _ _ _ Hdir). cbn zeta iota.
      match goal with
      | |- context [git.build_up base parents ?e ?r'] =>
          destruct (IH e r') as (Hpre & Hrefs & Hc & Ht)
      end.
      split_and!; [etrans; [apply odb_write_prefix|exact Hpre]|exact Hrefs| |exact Ht].
      intros i c Hi. specialize (Hc _ _ Hi). simpl in Hc.
      by destruct (odb_write_inv _ _ _ _ Hc).
Qed.

Lemma add_preserves_ok ws path entries :
  ws_ok ws → ws_ok (add path entries ws).2.
Proof.
  intros [Hrepo Hidx]. unfold add, bind, get, on_repo, git.build_path, bind, lift.
  destruct (TreeBuilder (repo ws) (Object_oid <$> index ws)) as [e|base]; simpl;
    [by destruct ws|].
  destruct (build_up_frame base (rev (git.path_segments path)) entries (repo ws))
    as (Hpre & Hrefs & Hc & Ht).
  destruct (git.build_up base _ entries (repo ws)) as [res r1]. simpl in *.
  assert (repo_ok r1) as Hrepo1.
  { apply (repo_ok_grow (repo ws)); [done|done| |].
    - intros i c Hi. left. by apply Hc.
    - intros name oid H. left. by rewrite <- Hrefs. }
  destruct res as [e|oid]; simpl.
  - split; [done|]. by eapply index_stored_grow.
  - specialize (Ht oid eq_refl). unfold is_tree in Ht. unfold getitem. simpl.
    destruct (odb r1 !! oid) as [[d|es|c]|] eqn:Hoid; try done.
    simpl. split; [done|]. by intros t [= <-].
Qed.

(** X2. [Workspace(repo_path)] on a store in which every reference points
    to a stored object and the tree of every stored commit is stored: the
    workspace it returns is intact, its index being a tree of the store. *)
Lemma Workspace_init_ok disk cfg repo_path r ws :
  disk !! repo_path = Some r → repo_ok r →
  Workspace_init disk cfg repo_path = ok ws → ws_ok ws.
Proof.
  intros Hdisk Hrepo. unfold Workspace_init. rewrite Hdisk.
  set (ws0 := {| config := cfg; repo := r; index := None;
                 head := DEFAULT_BRANCH cfg; ticks := 0 |}).
  assert (ws_ok ws0) as Hok0 by (by split).
  destruct (lookup_reference r (head ws0)) as [[]|rf]; simpl; try done.
  - pose proof (with_empty_tree_ok ws0 Hok0) as [Hr1 _].
    unfold bind, on_repo, tb_write, write_object, lift, modify, getitem. simpl.
    rewrite odb_write_lookup. simpl. intros [= <-]. split; [done|].
    intros t [= <-]. simpl. apply odb_write_lookup.
  - pose proof (update_index_preserves_ok ws0 (Some (DEFAULT_BRANCH cfg)) Hok0) as Hok.
    destruct (update_index _ ws0) as [[e|[]] ws1]; simpl; [done|]. by intros [= <-].
Qed.

End integrity_facts.

Example plain_ref_name_ex :
  plain_ref_name "refs/heads/master" = true ∧ plain_ref_name "refs/heads/" = false ∧
  plain_ref_name "refs/heads/a b" = false ∧ plain_ref_name "HEAD" = false ∧
  name_available (repo ws_committed) "refs/heads/topic" = true ∧
  name_available (repo ws_committed) "refs/heads/master" = false ∧
  name_available (repo ws_committed) "refs/heads/master/next" = false.
Proof. split_and!; vm_compute; reflexivity. Qed.

Example os_path_split_ex :
  os_path_split "docs/readme.txt" = ("docs", "readme.txt") ∧
  os_path_split "readme.txt" = ("", "readme.txt") ∧
  os_path_split "/readme.txt" = ("/", "readme.txt") ∧
  os_path_split "a//b/" = ("a//b", "").
Proof. split_and!; reflexivity. Qed.

Example test_utils_run :
  (test_utils.test_describe_tree empty_repo).1 = ok test_utils.test_desc_describe_tree ∧
  (test_utils.test_build_path_update empty_repo).1
    = ok ("UPDATED CONTENT", test_utils.test_desc_build_path).
Proof. split; vm_compute; reflexivity. Qed.

(** * More properties of the workspace *)

Section opening_facts.

Implicit Types (ws : Workspace) (r : Repository).

(** Reading the branch only looks at the store and at the tracked name. *)
Lemma branch_ext ws ws' :
  repo ws' = repo ws → head ws' = head ws → branch ws' = branch ws.
Proof. unfold branch. by intros -> ->. Qed.

Lemma has_changes_clean ws t b :
  index ws = Some (ObjTree t) → branch ws = ok (Some b) →
  tree_entries (branch_tree b) = tree_entries t →
  has_changes ws = (ok false, ws).
Proof.
  intros Hi Hb He. rewrite has_changes_unfold, diff_unfold, Hb, Hi. simpl.
  apply Tree_diff_nil in He. unfold Tree_diff in He. simpl in He. by rewrite He.
Qed.

(** X1. A workspace that [Workspace(repo_path)] returns has no pending
    changes, and tracks the configured default branch. *)
Theorem Workspace_init_clean disk cfg repo_path ws :
  Workspace_init disk cfg repo_path = ok ws →
  (has_changes ws).1 = ok false ∧ head ws = DEFAULT_BRANCH cfg ∧ config ws = cfg ∧
  ∃ t, index ws = Some (ObjTree t).
Proof.
  unfold Workspace_init. destruct (disk !! repo_path) as [r|]; [|done].
  set (ws0 := {| config := cfg; repo := r; index := None;
                 head := DEFAULT_BRANCH cfg; ticks := 0 |}).
  unfold lookup_reference. simpl.
  destruct (refs r !! DEFAULT_BRANCH cfg) as [tip|] eqn:Href; simpl.
  - unfold update_index, bind, get, lift, lookup_reference, modify. simpl.
    rewrite Href. simpl. unfold branch_attr.
    destruct (branch (set_head (DEFAULT_BRANCH cfg) ws0)) as [e|[b|]] eqn:Hb;
      simpl; try done.
    intros [= <-]. simpl. split_and!; try done; [|by eexists].
    erewrite has_changes_clean; [done|done| |done].
    erewrite branch_ext; [exact Hb|done|done].
  - unfold bind, on_repo, tb_write, write_object, lift, modify, getitem. simpl.
    rewrite odb_write_lookup. simpl. intros [= <-]. simpl.
    split_and!; try done; [|by eexists].
    rewrite has_changes_unfold, diff_unfold. rewrite branch_ref_None by done. done.
Qed.

(** X3. In an intact store the [branch] property is [None] exactly when
    the tracked reference does not exist; otherwise it is the view of the
    commit the reference points to. *)
Theorem branch_none_iff ws :
  repo_ok (repo ws) →
  (branch ws = ok None ↔ refs (repo ws) !! head ws = None) ∧
  (∀ b, branch ws = ok (Some b) →
        refs (repo ws) !! head ws = Some (branch_oid b) ∧
        getitem (repo ws) (branch_oid b) = ok (ObjCommit (branch_commit b)) ∧
        Commit_tree (repo ws) (branch_commit b) = ok (branch_tree b)).
Proof.
  intros Hrepo. split; [split; [by apply branch_ok_None|apply branch_ref_None]|].
  intros b Hb. destruct (branch_ok_Some ws b Hb) as (Hh & Hco & Hc & Hto & Ht).
  split; [done|]. unfold getitem, Commit_tree. rewrite Hc, <- Hto, Ht.
  destruct b as [rf o [co cd] [to te]]. simpl in *. by subst.
Qed.

(** [has_changes()] on a workspace whose index is a tree: true
    exactly when the entries of the index differ from the entries of the
    tree of the tracked branch, or from no entries when the branch has no
    commit yet. *)
Lemma has_changes_spec ws t :
  index ws = Some (ObjTree t) →
  (has_changes ws).1
  = (let? base := branch_tree_or_empty ws in
     ok (bool_decide (tree_entries base ≠ tree_entries t))).
Proof.
  intros Hi. rewrite has_changes_unfold, diff_result.
  destruct (branch_tree_or_empty ws) as [e|base]; simpl; [done|].
  rewrite Hi. simpl. f_equal.
  pose proof (Tree_diff_nil base t) as Hnil. unfold Tree_diff in Hnil. simpl in Hnil.
  destruct (map_to_list _) as [|x l]; simpl.
  - rewrite bool_decide_eq_false_2; [done|]. intros Hne. apply Hne. by apply Hnil.
  - rewrite bool_decide_eq_true_2; [done|]. intros Heq. by apply Hnil in Heq.
Qed.

(** X7. [update_index()] called without a reference never sets the index
    to the current branch: it raises, and leaves the index, the tracked
    branch name and the references as they were. *)
Theorem update_index_no_ref ws :
  (∃ e, (update_index None ws).1 = fail e) ∧
  index (update_index None ws).2 = index ws ∧
  head (update_index None ws).2 = head ws ∧
  refs (repo (update_index None ws).2) = refs (repo ws).
Proof.
  unfold update_index, bind, get.
  replace ((if truth (index ws) then has_changes else ret false) ws) with (pending ws)
    by (unfold pending; by destruct (truth (index ws))).
  destruct (pending_frame ws) as (Hi & Hh & Hr & _).
  destruct (pending ws) as [[e|[|]] ws1]; simpl in *; split_and!; try done; by eexists.
Qed.

(** X6. [set_branch] onto a reference that does not point to a commit,
    on a workspace without changes: [AttributeError] is raised when the
    tree of the branch is read, after the tracked branch name was already
    replaced; the index stays what it was. *)
Theorem set_branch_not_commit ws name tip :
  (has_changes ws).1 = ok false →
  refs (repo ws) !! ("refs/heads/" +:+ name) = Some tip →
  is_commit (repo ws) tip = false →
  (set_branch name ws).1 = fail (AttributeError "tree") ∧
  head (set_branch name ws).2 = "refs/heads/" +:+ name ∧
  index (set_branch name ws).2 = index ws ∧
  refs (repo (set_branch name ws).2) = refs (repo ws).
Proof.
  intros Hclean Href Hnc. rewrite (set_branch_found _ _ _ Href).
  assert ((pending ws).1 = ok false ∧
          ∀ oid, is_commit (repo (pending ws).2) oid = is_commit (repo ws) oid) as [Hp Hc].
  { unfold pending. destruct (truth (index ws)); [|done].
    split; [done|]. by destruct (has_changes_frame ws) as (_&_&_&_&_&_&?). }
  destruct (pending_frame ws) as (Hi & Hh & Hr & _).
  unfold update_index, bind, get.
  replace ((if truth (index ws) then has_changes else ret false) ws) with (pending ws)
    by (unfold pending; by destruct (truth (index ws))).
  destruct (pending ws) as [res ws1]. simpl in *. subst res.
  unfold lift, lookup_reference, modify. simpl. rewrite Hr, Href. simpl.
  assert (branch_attr "tree" branch_tree (set_head ("refs/heads/" +:+ name) ws1)
          = fail (AttributeError "tree")) as ->; [|done].
  unfold branch_attr, branch, Branch_init, lookup_reference, getitem. simpl.
  rewrite Hr, Href. simpl.
  specialize (Hc tip). rewrite Hnc in Hc. unfold is_commit in Hc.
  by destruct (odb (repo ws1) !! tip) as [[d|es|c]|].
Qed.

Lemma create_branch_head ws name tip :
  refs (repo ws) !! head ws = Some tip →
  refs (repo ws) !! ("refs/heads/" +:+ name) = None →
  create_branch name None ws
  = (ok tt, set_repo (set_refs (<["refs/heads/" +:+ name := tip]> (refs (repo ws)))
                        (repo ws)) ws).
Proof.
  intros Hh Hfree. unfold create_branch, bind, get, lift, lookup_reference. simpl.
  rewrite Hh. simpl. unfold on_repo, pygit2.create_reference. simpl. by rewrite Hfree.
Qed.

(** X5. [create_branch(name)] followed by [set_branch(name)], on a
    workspace without changes whose branch has a commit and for a name
    under which a reference can be created (well formed, free, and in
    conflict with no reference of the store): both return, the new
    reference points to the tip of the old branch, the workspace tracks
    the new branch, the index is the tree of that tip and there are still
    no changes. *)
Theorem create_branch_then_set_branch ws name b :
  (has_changes ws).1 = ok false →
  branch ws = ok (Some b) →
  name_available (repo ws) ("refs/heads/" +:+ name) = true →
  (do create_branch name None in set_branch name) ws
  = (ok tt,
     set_index (Some (ObjTree (branch_tree b)))
       (set_head ("refs/heads/" +:+ name)
          (set_repo (set_refs (<["refs/heads/" +:+ name := branch_oid b]> (refs (repo ws)))
                       (repo ws)) ws))) ∧
  (has_changes ((do create_branch name None in set_branch name) ws).2).1 = ok false.
Proof.
  intros Hclean Hb Hfree.
  unfold name_available in Hfree.
  apply andb_true_iff in Hfree as [Hfree _]. apply andb_true_iff in Hfree as [_ Hfree].
  apply bool_decide_eq_true in Hfree.
  destruct (branch_ok_Some ws b Hb) as (Hh & Hco & Hc & Hto & Ht).
  destruct (has_changes_false_inv ws Hclean) as (t & base & Hi & Hbase & He).
  unfold branch_tree_or_empty in Hbase. rewrite Hb in Hbase. simpl in Hbase.
  injection Hbase as <-.
  assert (branch_tree b = {| tree_oid := c_tree (commit_data (branch_commit b));
                             tree_entries := tree_entries (branch_tree b) |}) as Htree
    by (rewrite <- Hto; by destruct (branch_tree b)).
  rewrite Hto in Ht.
  pose proof (create_branch_head ws name _ Hh Hfree) as Hcb.
  set (ws1 := set_repo (set_refs (<["refs/heads/" +:+ name := branch_oid b]> (refs (repo ws)))
                          (repo ws)) ws) in *.
  assert ("refs/heads/" +:+ name ≠ head ws) as Hne
    by (intros Heq; rewrite Heq, Hh in Hfree; done).
  assert (has_changes ws1 = (ok false, ws1)) as Hc1.
  { apply (has_changes_clean ws1 t b); [done| |done].
    rewrite <- Hb. unfold branch, Branch_init, lookup_reference. simpl.
    by rewrite lookup_insert_ne. }
  assert (pending ws1 = (ok false, ws1)) as Hp1.
  { unfold pending. by destruct (truth (index ws1)). }
  assert ((do create_branch name None in set_branch name) ws
          = (ok tt, set_index (Some (ObjTree (branch_tree b)))
                      (set_head ("refs/heads/" +:+ name) ws1))) as Hrun.
  { unfold bind. rewrite Hcb.
    rewrite (set_branch_found ws1 name (branch_oid b)) by apply lookup_insert_eq.
    rewrite (update_index_switch ws1 _ (branch_oid b) (commit_data (branch_commit b))
               (tree_entries (branch_tree b)));
      rewrite ?Hp1; try done; [|apply lookup_insert_eq].
    by rewrite <- Htree. }
  rewrite Hrun. split; [done|]. cbn [snd fst].
  pose proof (branch_resolves
                (set_index (Some (ObjTree (branch_tree b)))
                   (set_head ("refs/heads/" +:+ name) ws1))
                (branch_oid b) (commit_data (branch_commit b))
                (tree_entries (branch_tree b))) as Hb2.
  cbn [repo head set_index set_head set_repo set_refs refs odb ws1] in Hb2.
  specialize (Hb2 (lookup_insert_eq _ _ _) Hc Ht).
  by rewrite (has_changes_clean
                (set_index (Some (ObjTree (branch_tree b)))
                   (set_head ("refs/heads/" +:+ name) ws1))
                (branch_tree b) _ eq_refl Hb2).
Qed.

End opening_facts.

(** ** More on committing *)

Section committing_facts.

Context (mc : Machine).

Implicit Types (ws : Workspace) (r : Repository).

(** A workspace whose branch points to a commit of the index has no
    changes, and asking does not touch it. *)
Lemma has_changes_at_tip ws t tip c :
  index ws = Some (ObjTree t) →
  refs (repo ws) !! head ws = Some tip →
  odb (repo ws) !! tip = Some (GIT_OBJ_COMMIT c) →
  odb (repo ws) !! c_tree c = Some (GIT_OBJ_TREE (tree_entries t)) →
  has_changes ws = (ok false, ws).
Proof.
  intros Hi Hh Hc Ht.
  by rewrite (has_changes_clean ws t _ Hi (branch_resolves ws tip c (tree_entries t) Hh Hc Ht)).
Qed.



(** The entry code of [commit_on_success] on a workspace with changes. *)
Lemma commit_on_success_refuses ws message author committer :
  (has_changes ws).1 = ok true →
  cm_enter (commit_on_success mc message author committer) ws
  = (fail (RepositoryError
             "Repository has pending changes. Cannot auto-commit until pending changes have been comitted."),
     (has_changes ws).2).
Proof.
  intros H. unfold commit_on_success, cm_enter, bind.
  destruct (has_changes ws) as [res ws1]. simpl in *. by subst res.
Qed.

Lemma commit_on_success_enters ws message author committer :
  (has_changes ws).1 = ok false →
  cm_enter (commit_on_success mc message author committer) ws = (ok tt, (has_changes ws).2).
Proof.
  intros H. unfold commit_on_success, cm_enter, bind.
  destruct (has_changes ws) as [res ws1]. simpl in *. by subst res.
Qed.

(** X11. [commit_on_success] does not roll back.  When the block raises
    after it changed the index, the exception leaves the scope, nothing is
    committed and the changes stay in the index: the workspace is left as
    the block left it, and every later [commit_on_success] on it is
    refused with [RepositoryError] before its block runs. *)
Theorem commit_on_success_no_rollback ws message author committer
    (A : Type) (block : M Workspace A) e ws2 :
  (has_changes ws).1 = ok false →
  block (has_changes ws).2 = (fail e, ws2) →
  (has_changes ws2).1 = ok true →
  with_ (commit_on_success mc message author committer) block ws = (fail e, ws2) ∧
  ∀ message' author' committer' (B : Type) (block' : M Workspace B),
    with_ (commit_on_success mc message' author' committer') block' ws2
    = (fail (RepositoryError
               "Repository has pending changes. Cannot auto-commit until pending changes have been comitted."),
       (has_changes ws2).2).
Proof.
  intros Hclean Hblock Hdirty. split.
  - eapply with_block_raises; [by apply commit_on_success_enters|exact Hblock].
  - intros message' author' committer' B block'.
    apply with_enter_raises. by apply commit_on_success_refuses.
Qed.


End committing_facts.

(** ** Walking a branch that has a commit *)

Section walking_facts.

Context (sort_mode : Type) (repo_walk : Repository → Oid → sort_mode → result (list Commit)).

Implicit Types (ws : Workspace) (cs : list Commit).

Lemma walk_all_running ws cs : ∀ fuel,
  List.length cs ≤ fuel → walk_all repo_walk (S fuel) (WalkRunning cs) ws = ok cs.
Proof.
  induction cs as [|c rest IH]; intros fuel Hfuel; [done|].
  destruct fuel as [|fuel]; simpl in Hfuel; [lia|].
  change (walk_all repo_walk (S (S fuel)) (WalkRunning (c :: rest)) ws)
    with (let? rest' := walk_all repo_walk (S fuel) (WalkRunning rest) ws in ok (c :: rest')).
  rewrite IH by lia. done.
Qed.

(** X13. [list(ws.walk(sort))] on a workspace whose branch resolves: the
    branch is read once, at the first step, and the commits are those the
    store's walker gives from the tip of the branch, in its order; an
    error of the walker is raised at the first step. *)
Theorem walk_all_branch ws sort b :
  branch ws = ok (Some b) →
  match repo_walk (repo ws) (branch_oid b) sort with
  | inl e => ∀ fuel, walk_all repo_walk (S fuel) (walk sort) ws = fail e
  | inr cs =>
      ∀ fuel, List.length cs ≤ fuel → walk_all repo_walk (S fuel) (walk sort) ws = ok cs
  end.
Proof.
  intros Hb.
  assert (walk_next repo_walk (walk sort) ws
          = match repo_walk (repo ws) (branch_oid b) sort with
            | inl e => (inl e, WalkFinished)
            | inr cs => walk_yield cs
            end) as Hnext.
  { unfold walk_next, walk, branch_attr. by rewrite Hb. }
  destruct (repo_walk (repo ws) (branch_oid b) sort) as [e|cs] eqn:Hw.
  - intros fuel. cbn [walk_all]. by rewrite Hnext.
  - intros fuel Hfuel. cbn [walk_all]. rewrite Hnext.
    destruct cs as [|c rest]; [done|]. cbn [walk_yield].
    destruct fuel as [|fuel]; simpl in Hfuel; [lia|].
    rewrite walk_all_running by lia. done.
Qed.

End walking_facts.

(** ** Adding to the index *)

Section adding_facts.

Implicit Types (ws : Workspace) (r : Repository).
Implicit Types (base tb : gmap string (Oid * filemode)).
Implicit Types (entries : list (string * Oid * filemode)).

Lemma lookup_dir_app r : ∀ segs es d rest,
  git.lookup_dir r es segs = ok (Some d) →
  git.lookup_dir r es (segs ++ rest) = git.lookup_dir r d rest.
Proof.
  induction segs as [|seg segs IH]; intros es d rest H; simpl in *.
  - by injection H as ->.
  - destruct (es !! seg) as [[oid [| |]]|]; try done.
    destruct (odb r !! oid) as [[x|sub|c]|]; try done. by apply IH.
Qed.

Lemma tb_insert_all_notin entries : ∀ tb name,
  name ∉ entries.*1.*1 →
  foldl (λ tb e, tb_insert e tb) tb entries !! name = tb !! name.
Proof.
  induction entries as [|[[n o] m] rest IH]; intros tb name Hn; [done|].
  simpl in *. apply not_elem_of_cons in Hn as [Hne Hn].
  rewrite IH by done. by apply lookup_insert_ne.
Qed.

Lemma tb_insert_all_in entries : ∀ tb name oid mode,
  NoDup entries.*1.*1 → (name, oid, mode) ∈ entries →
  foldl (λ tb e, tb_insert e tb) tb entries !! name = Some (oid, mode).
Proof.
  induction entries as [|[[n o] m] rest IH]; intros tb name oid mode Hnd Hin.
  - by apply elem_of_nil in Hin.
  - simpl in *. apply NoDup_cons in Hnd as [Hn Hnd].
    apply elem_of_cons in Hin as [[= -> -> ->]|Hin].
    + rewrite tb_insert_all_notin by done. apply lookup_insert_eq.
    + by apply IH.
Qed.

(** The tree [build_up] returns holds, at the path it was given, the
    directory of the base tree with the entries inserted. *)
Lemma build_up_lookup base up : ∀ entries r root r1,
  git.build_up base up entries r = (ok root, r1) →
  ∃ dir es,
    git.lookup_dir r base (rev up) = ok dir ∧
    odb r1 !! root = Some (GIT_OBJ_TREE es) ∧
    git.lookup_dir r1 es (rev up)
    = ok (Some (foldl (λ tb e, tb_insert e tb) (default ∅ dir) entries)).
Proof.
  induction up as [|name parents IH]; intros entries r root r1 H.
  - destruct (build_up_inv _ _ _ _ _ _ H) as [dir Hdir].
    rewrite (build_up_step _ _ _ _ _ Hdir) in H. simpl in H.
    injection H as <- <-. exists dir. eexists. split_and!; [done| |done].
    apply odb_write_lookup.
  - destruct (build_up_inv _ _ _ _ _ _ H) as [dir Hdir].
    rewrite (build_up_step _ _ _ _ _ Hdir) in H. cbn zeta iota in H.
    destruct (build_up_again _ _ _ _ _ _ H) as (Hpre & _ & _).
    destruct (IH _ _ _ _ H) as (dir' & es & Hdir' & Hroot & Hlook).
    exists dir, es. split_and!; [done|done|].
    cbn [rev]. rewrite (lookup_dir_app _ _ _ _ _ Hlook).
    cbn [foldl tb_insert git.lookup_dir]. rewrite lookup_insert_eq.
    cbn [odb set_odb] in Hpre.
    by rewrite (prefix_lookup_Some' _ _ _ _ (odb_write_lookup _ _) Hpre).
Qed.

Lemma Tree_bypath_snoc r (tree : Oid) es segs name :
  odb r !! tree = Some (GIT_OBJ_TREE es) →
  Tree_bypath r tree (segs ++ [name])
  = (let? dir := git.lookup_dir r es segs in
     match dir ≫= λ d, d !! name with
     | Some e => ok e
     | None => fail KeyError
     end).
Proof.
  intros H. unfold Tree_bypath. by rewrite H, removelast_last, last_last.
Qed.

(** X16. The round trip of [build_path]: in the tree it returns, every
    entry it was given (with distinct names) is found at the path under
    its name, and the names of that directory it was not given are what
    they were in the base tree. *)
Theorem build_path_lookup r path entries base_tree root r1 :
  git.build_path path entries base_tree r = (ok root, r1) →
  NoDup entries.*1.*1 →
  (∀ name oid mode, (name, oid, mode) ∈ entries →
     Tree_bypath r1 root (git.path_segments path ++ [name]) = ok (oid, mode)) ∧
  (∀ (old : Oid) name, base_tree = Some old → name ∉ entries.*1.*1 →
     Tree_bypath r1 root (git.path_segments path ++ [name])
     = Tree_bypath r old (git.path_segments path ++ [name])).
Proof.
  unfold git.build_path, bind, lift. intros H Hnd.
  destruct (TreeBuilder r base_tree) as [e|es0] eqn:Hbase; [done|].
  destruct (build_up_lookup _ _ _ _ _ _ H) as (dir & es & Hdir & Hroot & Hlook).
  rewrite rev_involutive in Hdir, Hlook. split.
  - intros name oid mode Hin. rewrite (Tree_bypath_snoc _ _ _ _ _ Hroot), Hlook.
    simpl. by rewrite (tb_insert_all_in _ _ _ _ _ Hnd Hin).
  - intros old name -> Hn. rewrite (Tree_bypath_snoc _ _ _ _ _ Hroot), Hlook.
    simpl. rewrite tb_insert_all_notin by done.
    unfold TreeBuilder in Hbase.
    destruct (odb r !! old) as [[x|es1|c]|] eqn:Hb; try done. injection Hbase as ->.
    rewrite (Tree_bypath_snoc _ _ _ _ _ Hb), Hdir. simpl.
    destruct dir as [d|]; simpl; [done|]. by rewrite lookup_empty.
Qed.

Lemma add_unfold ws path entries :
  add path entries ws =
    match git.build_path path entries (Object_oid <$> index ws) (repo ws) with
    | (inl e, r1) => (inl e, set_repo r1 ws)
    | (inr oid, r1) =>
        match getitem r1 oid with
        | inl e => (inl e, set_repo r1 ws)
        | inr obj => (ok tt, set_index (Some obj) (set_repo r1 ws))
        end
    end.
Proof.
  unfold add, bind, get, on_repo, lift, modify.
  destruct (git.build_path _ _ _ _) as [[e|oid] r1]; simpl; [done|].
  by destruct (getitem r1 oid).
Qed.

Lemma build_path_frame r path entries base_tree :
  odb r `prefix_of` odb (git.build_path path entries base_tree r).2 ∧
  refs (git.build_path path entries base_tree r).2 = refs r ∧
  (∀ oid, is_commit (git.build_path path entries base_tree r).2 oid = is_commit r oid) ∧
  (∀ oid, (git.build_path path entries base_tree r).1 = ok oid →
          is_tree (git.build_path path entries base_tree r).2 oid = true).
Proof.
  unfold git.build_path, bind, lift.
  destruct (TreeBuilder r base_tree) as [e|base]; [done|].
  destruct (build_up_frame base (rev (git.path_segments path)) entries r)
    as (Hpre & Hrefs & Hc & Ht).
  split_and!; try done.
  intros oid. unfold is_commit.
  destruct (odb r !! oid) as [x|] eqn:Hx.
  - by rewrite (prefix_lookup_Some' _ _ _ _ Hx Hpre).
  - specialize (Hc oid).
    destruct (odb (git.build_up _ _ _ _).2 !! oid) as [[d|es|c]|]; try done.
    by rewrite (Hc c eq_refl) in Hx.
Qed.

(** X14. What [add] can change, whatever it returns or raises: the
    references, the tracked branch name and the configuration are kept,
    the object database keeps what it had and receives no commit.  When
    [add] returns, the index is a tree of the store; when it raises, the
    index is what it was. *)
Theorem add_frame ws path entries :
  let res := add path entries ws in
  config res.2 = config ws ∧ head res.2 = head ws ∧
  refs (repo res.2) = refs (repo ws) ∧
  odb (repo ws) `prefix_of` odb (repo res.2) ∧
  (∀ oid, is_commit (repo res.2) oid = is_commit (repo ws) oid) ∧
  match res.1 with
  | inr _ => ∃ t, index res.2 = Some (ObjTree t) ∧
                  odb (repo res.2) !! tree_oid t = Some (GIT_OBJ_TREE (tree_entries t))
  | inl _ => index res.2 = index ws
  end.
Proof.
  cbn zeta. rewrite add_unfold.
  destruct (build_path_frame (repo ws) path entries (Object_oid <$> index ws))
    as (Hpre & Hrefs & Hc & Ht).
  destruct (git.build_path _ _ _ _) as [[e|oid] r1]; simpl in *; [done|].
  specialize (Ht oid eq_refl). unfold is_tree in Ht. unfold getitem.
  destruct (odb r1 !! oid) as [[d|es|c]|] eqn:Hoid; try done.
  simpl. split_and!; try done. by eexists.
Qed.

(** X15. [add_blob(path, content, mode)], when it returns: the identifier
    returned is that of a stored blob with the content given, the index is
    a tree in which the directory part of the path followed by its last
    component leads to that blob with the mode given, and no reference and
    not the tracked branch name has changed. *)
Theorem add_blob_spec ws path content mode blob ws' :
  add_blob path content mode ws = (ok blob, ws') →
  Blob_data (repo ws') blob = ok content ∧
  (∃ t, index ws' = Some (ObjTree t) ∧
        Tree_bypath (repo ws') (tree_oid t)
          (git.path_segments (os_path_split path).1 ++ [(os_path_split path).2])
        = ok (blob, mode)) ∧
  refs (repo ws') = refs (repo ws) ∧ head ws' = head ws.
Proof.
  unfold add_blob. destruct (os_path_split path) as [dir name]. cbn [fst snd].
  unfold bind, on_repo, pygit2.create_blob, write_object. cbn [fst snd].
  set (w := odb_write (GIT_OBJ_BLOB content) (odb (repo ws))).
  set (ws0 := set_repo (set_odb w.2 (repo ws)) ws).
  rewrite add_unfold.
  destruct (build_path_frame (repo ws0) dir [(name, w.1, mode)] (Object_oid <$> index ws0))
    as (Hpre & Hrefs & _ & Ht).
  destruct (git.build_path dir [(name, w.1, mode)] (Object_oid <$> index ws0) (repo ws0))
    as [[e|oid] r1] eqn:Hbp; [done|].
  cbn [fst snd] in *. specialize (Ht oid eq_refl). unfold is_tree in Ht. unfold getitem.
  destruct (odb r1 !! oid) as [[d|es|c]|] eqn:Hoid; try done.
  cbn. intros [= <- <-]. cbn. split_and!; try done.
  - unfold Blob_data, getitem.
    assert (odb r1 !! w.1 = Some (GIT_OBJ_BLOB content)) as ->; [|done].
    eapply prefix_lookup_Some'; [apply odb_write_lookup|exact Hpre].
  - eexists. split; [done|]. cbn.
    unfold git.build_path, bind, lift in Hbp.
    destruct (TreeBuilder (repo ws0) (Object_oid <$> index ws0)) as [e|base]; [done|].
    destruct (build_up_lookup _ _ _ _ _ _ Hbp) as (dir' & es' & _ & Hroot & Hlook).
    rewrite rev_involutive in Hlook. rewrite Hoid in Hroot. injection Hroot as <-.
    rewrite (Tree_bypath_snoc _ _ _ _ _ Hoid), Hlook. cbn.
    by rewrite lookup_insert_eq.
Qed.

End adding_facts.

(** ** Every operation keeps the workspace intact *)

Section integrity_kept.

Context (mc : Machine).

Implicit Types (ws : Workspace) (r : Repository).

Lemma create_blob_preserves_ok ws content : ws_ok ws → ws_ok (create_blob content ws).2.
Proof.
  intros [Hrepo Hidx]. unfold create_blob, on_repo, pygit2.create_blob, write_object.
  cbn [fst snd]. split.
  - apply (repo_ok_grow (repo ws)); cbn [odb refs set_odb repo set_repo];
      [done|apply odb_write_prefix| |by left].
    intros oid c H. by destruct (odb_write_inv _ _ _ _ H) as [?|?]; [left|].
  - eapply index_stored_grow; [done|done|apply odb_write_prefix].
Qed.

Lemma add_blob_preserves_ok ws path content mode :
  ws_ok ws → ws_ok (add_blob path content mode ws).2.
Proof.
  intros Hok. unfold add_blob. destruct (os_path_split path) as [dir name].
  pose proof (create_blob_preserves_ok ws content Hok) as Hok0.
  unfold create_blob, on_repo, pygit2.create_blob, write_object in Hok0.
  unfold bind, on_repo, pygit2.create_blob, write_object. cbn [fst snd] in *.
  match goal with
  | |- context [add ?p ?es ?w] =>
      pose proof (add_preserves_ok w p es Hok0) as Hok1; destruct (add p es w) as [[e|[]] ws1]
  end; done.
Qed.

Lemma create_branch_preserves_ok ws name start_point :
  ws_ok ws → ws_ok (create_branch name start_point ws).2.
Proof.
  intros Hok. unfold create_branch, bind, get, lift, lookup_reference. simpl.
  set (sp := match start_point with
             | Some sp => if decide (sp = "") then head ws else sp
             | None => head ws
             end).
  destruct (refs (repo ws) !! sp) as [oid|] eqn:Hsp; simpl; [|done].
  unfold on_repo, pygit2.create_reference. simpl.
  destruct (refs (repo ws) !! ("refs/heads/" +:+ name)); simpl;
    [by destruct ws as [? [? ?] ? ? ?]|].
  destruct Hok as [Hrepo Hidx]. split; [|done].
  apply (repo_ok_grow (repo ws)); simpl; [done|done|by left|].
  intros n o H. rewrite lookup_insert in H. case_decide; [|by left].
  injection H as <-. right. by apply (refs_stored _ Hrepo sp).
Qed.

(** X17. The integrity of the workspace is an invariant of its
    operations.  On a workspace in which every reference points to a
    stored object, the tree of every stored commit is stored and the index
    is a tree of the store, each of [add], [add_blob], [commit],
    [create_branch] and [set_branch] leaves such a workspace, whatever it
    returns or raises, and so does a [commit_on_success] scope around a
    block that does. *)
Theorem operations_keep_integrity ws :
  ws_ok ws →
  (∀ path entries, ws_ok (add path entries ws).2) ∧
  (∀ path content mode, ws_ok (add_blob path content mode ws).2) ∧
  (∀ message author committer, ws_ok (commit mc message author committer ws).2) ∧
  (∀ name start_point, ws_ok (create_branch name start_point ws).2) ∧
  (∀ name, ws_ok (set_branch name ws).2) ∧
  (∀ message author committer (A : Type) (block : M Workspace A),
     (∀ s, ws_ok s → ws_ok (block s).2) →
     ws_ok (with_ (commit_on_success mc message author committer) block ws).2).
Proof.
  intros Hok. split_and!.
  - intros. by apply add_preserves_ok.
  - intros. by apply add_blob_preserves_ok.
  - intros. by apply commit_preserves_ok.
  - intros. by apply create_branch_preserves_ok.
  - intros. by apply set_branch_preserves_ok.
  - intros message author committer A block Hblock.
    pose proof (has_changes_preserves_ok ws Hok) as Hok1.
    unfold with_, commit_on_success, cm_enter, cm_exit, bind.
    destruct (has_changes ws) as [[e|[|]] ws1]; cbn [fst snd] in *; try done.
    unfold ret at 1. specialize (Hblock ws1 Hok1).
    destruct (block ws1) as [[e|a] ws2]; cbn [fst snd] in *; [done|].
    pose proof (commit_preserves_ok mc ws2 message author committer Hblock) as Hok3.
    by destruct (commit mc message author committer ws2) as [[e|o] ws3].
Qed.

End integrity_kept.

(** ** The tests of the tree utilities *)

Section test_facts.

Implicit Types (r : Repository).

Lemma describe_lines_unfold depth r (tree : Oid) lvl es :
  odb r !! tree = Some (GIT_OBJ_TREE es) →
  git.describe_lines (S depth) r tree lvl =
    foldr (λ e acc,
             let '(name, (oid, mode)) := e in
             let? below :=
               (if decide (mode = GIT_FILEMODE_TREE)
                then git.describe_lines depth r oid (S lvl)
                else ok []) in
             let? rest := acc in
             let slash := if decide (mode = GIT_FILEMODE_TREE) then "/" else "" in
             ok ((git.indent_of lvl +:+ name +:+ slash) :: below ++ rest))
          (ok []) (git.entries_in_order es).
Proof. intros H. cbn [git.describe_lines]. by rewrite H. Qed.

Lemma entries_in_order_baz_test (a b : Oid * filemode) :
  git.entries_in_order (<["baz" := a]> (<["test.txt" := b]> ∅))
  = [("baz", a); ("test.txt", b)].
Proof. vm_compute. reflexivity. Qed.

(** X18. [test_describe_tree] passes on every store: the description of
    the tree it builds by hand is the text the test expects, [baz/] with
    its file before [test.txt]. *)
Theorem test_describe_tree_passes r :
  (test_utils.test_describe_tree r).1 = ok test_utils.test_desc_describe_tree.
Proof.
  unfold test_utils.test_describe_tree, bind, pygit2.create_blob, tb_write, write_object, lift.
  cbn [fst snd tb_insert odb set_odb].
  set (w1 := odb_write (GIT_OBJ_BLOB "TEST 2") (odb r)).
  set (w2 := odb_write (GIT_OBJ_BLOB "TEST") w1.2).
  set (w3 := odb_write (GIT_OBJ_TREE (<["test2.txt" := (w1.1, GIT_FILEMODE_BLOB)]> ∅)) w2.2).
  set (w4 := odb_write (GIT_OBJ_TREE (<["baz" := (w3.1, GIT_FILEMODE_TREE)]>
                                        (<["test.txt" := (w2.1, GIT_FILEMODE_BLOB)]> ∅))) w3.2).
  set (w5 := odb_write (GIT_OBJ_TREE (<["bar" := (w4.1, GIT_FILEMODE_TREE)]> ∅)) w4.2).
  set (w6 := odb_write (GIT_OBJ_TREE (<["foo" := (w5.1, GIT_FILEMODE_TREE)]> ∅)) w5.2).
  unfold git.describe_tree, git.recursion_limit.
  rewrite (describe_lines_dir _ _ _ _ "foo" w5.1)
    by (rewrite <- insert_empty; apply odb_write_lookup).
  rewrite (describe_lines_dir _ _ _ _ "bar" w4.1)
    by (rewrite <- insert_empty; apply odb_write_mono, odb_write_lookup).
  rewrite (describe_lines_unfold _ _ w4.1 _
             (<["baz" := (w3.1, GIT_FILEMODE_TREE)]>
                (<["test.txt" := (w2.1, GIT_FILEMODE_BLOB)]> ∅)))
    by (do 2 apply odb_write_mono; apply odb_write_lookup).
  rewrite entries_in_order_baz_test. cbn [foldr].
  rewrite decide_True by done. rewrite decide_False by done.
  rewrite (describe_lines_file _ _ _ _ "test2.txt" w1.1)
    by (rewrite <- insert_empty; do 3 apply odb_write_mono; apply odb_write_lookup).
  reflexivity.
Qed.

Lemma lookup_dir_cons r es seg rest (oid : Oid) sub :
  es !! seg = Some (oid, GIT_FILEMODE_TREE) →
  odb r !! oid = Some (GIT_OBJ_TREE sub) →
  git.lookup_dir r es (seg :: rest) = git.lookup_dir r sub rest.
Proof. intros H1 H2. cbn [git.lookup_dir]. by rewrite H1, H2. Qed.

Ltac stored :=
  first [apply odb_write_lookup
        |rewrite <- insert_empty; apply odb_write_lookup
        |apply odb_write_mono; stored].

(** [build_path] at [/foo/bar/baz/] with one entry: the chain of trees it
    writes, without a base tree and over a base tree that holds such a
    chain. *)
Lemma build_path_chain_fresh r n (o : Oid) m :
  ∃ (root t1 t2 t3 : Oid) r1,
    git.build_path "/foo/bar/baz/" [(n, o, m)] None r = (ok root, r1) ∧
    odb r `prefix_of` odb r1 ∧
    odb r1 !! root = Some (GIT_OBJ_TREE {["foo" := (t1, GIT_FILEMODE_TREE)]}) ∧
    odb r1 !! t1 = Some (GIT_OBJ_TREE {["bar" := (t2, GIT_FILEMODE_TREE)]}) ∧
    odb r1 !! t2 = Some (GIT_OBJ_TREE {["baz" := (t3, GIT_FILEMODE_TREE)]}) ∧
    odb r1 !! t3 = Some (GIT_OBJ_TREE {[n := (o, m)]}).
Proof.
  set (w3 := odb_write (GIT_OBJ_TREE {[n := (o, m)]}) (odb r)).
  set (w2 := odb_write (GIT_OBJ_TREE {["baz" := (w3.1, GIT_FILEMODE_TREE)]}) w3.2).
  set (w1 := odb_write (GIT_OBJ_TREE {["bar" := (w2.1, GIT_FILEMODE_TREE)]}) w2.2).
  set (w0 := odb_write (GIT_OBJ_TREE {["foo" := (w1.1, GIT_FILEMODE_TREE)]}) w1.2).
  exists w0.1, w1.1, w2.1, w3.1, (set_odb w0.2 r). split_and!.
  - unfold git.build_path, bind, lift. cbn [TreeBuilder].
    change (rev (git.path_segments "/foo/bar/baz/")) with ["baz"; "bar"; "foo"].
    unfold ok at 1. cbn iota.
    do 4 (rewrite (build_up_step _ _ _ _ _ (lookup_dir_empty _ _)); cbn zeta iota).
    cbn [rev app default foldl tb_insert odb set_odb]. by rewrite !insert_empty.
  - cbn [odb set_odb]. do 3 (etrans; [|apply odb_write_prefix]). apply odb_write_prefix.
  - cbn [odb set_odb]. stored.
  - cbn [odb set_odb]. stored.
  - cbn [odb set_odb]. stored.
  - cbn [odb set_odb]. stored.
Qed.

Lemma build_path_chain_update r (root t1 t2 t3 : Oid) n old (o : Oid) m :
  odb r !! root = Some (GIT_OBJ_TREE {["foo" := (t1, GIT_FILEMODE_TREE)]}) →
  odb r !! t1 = Some (GIT_OBJ_TREE {["bar" := (t2, GIT_FILEMODE_TREE)]}) →
  odb r !! t2 = Some (GIT_OBJ_TREE {["baz" := (t3, GIT_FILEMODE_TREE)]}) →
  odb r !! t3 = Some (GIT_OBJ_TREE {[n := old]}) →
  ∃ (root' t1' t2' t3' : Oid) r1,
    git.build_path "/foo/bar/baz/" [(n, o, m)] (Some root) r = (ok root', r1) ∧
    odb r `prefix_of` odb r1 ∧
    odb r1 !! root' = Some (GIT_OBJ_TREE {["foo" := (t1', GIT_FILEMODE_TREE)]}) ∧
    odb r1 !! t1' = Some (GIT_OBJ_TREE {["bar" := (t2', GIT_FILEMODE_TREE)]}) ∧
    odb r1 !! t2' = Some (GIT_OBJ_TREE {["baz" := (t3', GIT_FILEMODE_TREE)]}) ∧
    odb r1 !! t3' = Some (GIT_OBJ_TREE {[n := (o, m)]}).
Proof.
  intros H0 H1 H2 H3.
  set (w3 := odb_write (GIT_OBJ_TREE {[n := (o, m)]}) (odb r)).
  set (w2 := odb_write (GIT_OBJ_TREE {["baz" := (w3.1, GIT_FILEMODE_TREE)]}) w3.2).
  set (w1 := odb_write (GIT_OBJ_TREE {["bar" := (w2.1, GIT_FILEMODE_TREE)]}) w2.2).
  set (w0 := odb_write (GIT_OBJ_TREE {["foo" := (w1.1, GIT_FILEMODE_TREE)]}) w1.2).
  exists w0.1, w1.1, w2.1, w3.1, (set_odb w0.2 r). split_and!.
  - unfold git.build_path, bind, lift. cbn [TreeBuilder]. rewrite H0.
    change (rev (git.path_segments "/foo/bar/baz/")) with ["baz"; "bar"; "foo"].
    unfold ok at 1. cbn iota.
    rewrite (build_up_step _ _ _ _ (Some {[n := old]})).
    2:{ cbn [rev app].
        rewrite (lookup_dir_cons _ _ _ _ _ _ (lookup_singleton_eq _ _) H1).
        rewrite (lookup_dir_cons _ _ _ _ _ _ (lookup_singleton_eq _ _) H2).
        by rewrite (lookup_dir_cons _ _ _ _ _ _ (lookup_singleton_eq _ _) H3). }
    cbn zeta iota. cbn [default from_option id foldl tb_insert]. rewrite insert_singleton_eq. fold w3.
    rewrite (build_up_step _ _ _ _ (Some {["baz" := (t3, GIT_FILEMODE_TREE)]})).
    2:{ cbn [rev app].
        rewrite (lookup_dir_cons (set_odb w3.2 r) _ _ _ _ _ (lookup_singleton_eq _ _)
                   (odb_write_mono _ _ _ _ H1)).
        by rewrite (lookup_dir_cons (set_odb w3.2 r) _ _ _ _ _ (lookup_singleton_eq _ _)
                      (odb_write_mono _ _ _ _ H2)). }
    cbn zeta iota. cbn [default from_option id foldl tb_insert odb set_odb]. rewrite insert_singleton_eq.
    fold w2.
    rewrite (build_up_step _ _ _ _ (Some {["bar" := (t2, GIT_FILEMODE_TREE)]})).
    2:{ cbn [rev app].
        by rewrite (lookup_dir_cons (set_odb w2.2 (set_odb w3.2 r)) _ _ _ _ _
                      (lookup_singleton_eq _ _)
                      (odb_write_mono _ _ _ _ (odb_write_mono _ _ _ _ H1))). }
    cbn zeta iota. cbn [default from_option id foldl tb_insert odb set_odb]. rewrite insert_singleton_eq.
    fold w1.
    rewrite (build_up_step _ _ _ _ (Some {["foo" := (t1, GIT_FILEMODE_TREE)]})) by done.
    cbn zeta iota. cbn [default from_option id foldl tb_insert odb set_odb]. rewrite insert_singleton_eq.
    done.
  - cbn [odb set_odb]. do 3 (etrans; [|apply odb_write_prefix]). apply odb_write_prefix.
  - cbn [odb set_odb]. stored.
  - cbn [odb set_odb]. stored.
  - cbn [odb set_odb]. stored.
  - cbn [odb set_odb]. stored.
Qed.

Lemma describe_tree_chain r (root t1 t2 t3 blob : Oid) :
  odb r !! root = Some (GIT_OBJ_TREE {["foo" := (t1, GIT_FILEMODE_TREE)]}) →
  odb r !! t1 = Some (GIT_OBJ_TREE {["bar" := (t2, GIT_FILEMODE_TREE)]}) →
  odb r !! t2 = Some (GIT_OBJ_TREE {["baz" := (t3, GIT_FILEMODE_TREE)]}) →
  odb r !! t3 = Some (GIT_OBJ_TREE {["qux.txt" := (blob, GIT_FILEMODE_BLOB)]}) →
  git.describe_tree r root = ok test_utils.test_desc_build_path.
Proof.
  intros H0 H1 H2 H3. unfold git.describe_tree, git.recursion_limit.
  rewrite (describe_lines_dir _ _ _ _ _ _ H0), (describe_lines_dir _ _ _ _ _ _ H1),
    (describe_lines_dir _ _ _ _ _ _ H2), (describe_lines_file _ _ _ _ _ _ H3).
  reflexivity.
Qed.

Lemma Tree_getitem_chain r (root t1 t2 t3 : Oid) e :
  odb r !! root = Some (GIT_OBJ_TREE {["foo" := (t1, GIT_FILEMODE_TREE)]}) →
  odb r !! t1 = Some (GIT_OBJ_TREE {["bar" := (t2, GIT_FILEMODE_TREE)]}) →
  odb r !! t2 = Some (GIT_OBJ_TREE {["baz" := (t3, GIT_FILEMODE_TREE)]}) →
  odb r !! t3 = Some (GIT_OBJ_TREE {["qux.txt" := e]}) →
  Tree_getitem r root "foo/bar/baz/qux.txt" = ok e.
Proof.
  intros H0 H1 H2 H3. unfold Tree_getitem.
  change (git.split_on "/" "foo/bar/baz/qux.txt") with ["foo"; "bar"; "baz"; "qux.txt"].
  unfold Tree_bypath. rewrite H0. cbn [removelast List.last].
  rewrite (lookup_dir_cons _ _ _ _ _ _ (lookup_singleton_eq _ _) H1).
  rewrite (lookup_dir_cons _ _ _ _ _ _ (lookup_singleton_eq _ _) H2).
  rewrite (lookup_dir_cons _ _ _ _ _ _ (lookup_singleton_eq _ _) H3).
  cbn. by rewrite lookup_singleton_eq.
Qed.

(** X19. [test_build_path_update] passes on every store: after the file
    at [/foo/bar/baz/qux.txt] is built a second time over the first tree
    with a new blob, the entry at that path holds the new content and the
    description of the tree is the text the test expects. *)
Theorem test_build_path_update_passes r :
  (test_utils.test_build_path_update r).1
  = ok ("UPDATED CONTENT", test_utils.test_desc_build_path).
Proof.
  unfold test_utils.test_build_path_update.
  unfold bind at 1. unfold pygit2.create_blob at 1, write_object at 1.
  set (b1 := odb_write (GIT_OBJ_BLOB "TEST CONTENT") (odb r)).
  destruct (build_path_chain_fresh (set_odb b1.2 r) "qux.txt" b1.1 GIT_FILEMODE_BLOB)
    as (root & t1 & t2 & t3 & r1 & Hbp & Hpre & H0 & H1 & H2 & H3).
  unfold bind at 1. rewrite Hbp. unfold ok at 1. cbv beta iota.
  unfold bind at 1. unfold pygit2.create_blob at 1, write_object at 1.
  set (b2 := odb_write (GIT_OBJ_BLOB "UPDATED CONTENT") (odb r1)).
  destruct (build_path_chain_update (set_odb b2.2 r1) root t1 t2 t3 "qux.txt"
              (b1.1, GIT_FILEMODE_BLOB) b2.1 GIT_FILEMODE_BLOB)
    as (root' & t1' & t2' & t3' & r2 & Hbp' & Hpre' & H0' & H1' & H2' & H3');
    try (cbn [odb set_odb]; by apply odb_write_mono).
  unfold bind at 1. rewrite Hbp'. unfold ok at 1. cbv beta iota.
  unfold bind, lift, ret.
  rewrite (Tree_getitem_chain r2 root' t1' t2' t3' _ H0' H1' H2' H3').
  unfold ok at 1. cbv beta iota. cbn [fst snd].
  assert (Blob_data r2 b2.1 = ok "UPDATED CONTENT") as ->.
  { unfold Blob_data, getitem.
    assert (odb r2 !! b2.1 = Some (GIT_OBJ_BLOB "UPDATED CONTENT")) as ->; [|done].
    eapply prefix_lookup_Some'; [|exact Hpre']. apply odb_write_lookup. }
  by rewrite (describe_tree_chain r2 root' t1' t2' t3' _ H0' H1' H2' H3').
Qed.

End test_facts.

(** ** The properties above, run on the repositories of the examples *)

Lemma Workspace_init_clean_witness :
  ∃ ws, Workspace_init disk1 cfg0 "/srv/data.git" = ok ws ∧
    (has_changes ws).1 = ok false ∧ head ws = DEFAULT_BRANCH cfg0 ∧ config ws = cfg0 ∧
    ∃ t, index ws = Some (ObjTree t).
Proof.
  eexists. split; [vm_compute; reflexivity|].
  apply (Workspace_init_clean disk1 cfg0 "/srv/data.git"). vm_compute. reflexivity.
Defined.

Lemma Workspace_init_ok_witness :
  ∃ ws, Workspace_init disk1 cfg0 "/srv/data.git" = ok ws ∧ ws_ok ws.
Proof.
  eexists. split; [vm_compute; reflexivity|].
  apply (Workspace_init_ok disk1 cfg0 "/srv/data.git" (repo ws_committed)).
  - vm_compute. reflexivity.
  - apply ws_repo_ok, ws_ok_check_sound. vm_compute. reflexivity.
  - vm_compute. reflexivity.
Defined.

Lemma branch_none_iff_witness :
  (branch ws_committed = ok None ↔ refs (repo ws_committed) !! head ws_committed = None) ∧
  (∀ b, branch ws_committed = ok (Some b) →
        refs (repo ws_committed) !! head ws_committed = Some (branch_oid b) ∧
        getitem (repo ws_committed) (branch_oid b) = ok (ObjCommit (branch_commit b)) ∧
        Commit_tree (repo ws_committed) (branch_commit b) = ok (branch_tree b)).
Proof.
  apply (branch_none_iff ws_committed).
  apply ws_repo_ok, ws_ok_check_sound. vm_compute. reflexivity.
Defined.

Lemma set_branch_not_commit_witness :
  (set_branch "notes" ws_blob_ref).1 = fail (AttributeError "tree") ∧
  head (set_branch "notes" ws_blob_ref).2 = "refs/heads/" +:+ "notes" ∧
  index (set_branch "notes" ws_blob_ref).2 = index ws_blob_ref ∧
  refs (repo (set_branch "notes" ws_blob_ref).2) = refs (repo ws_blob_ref).
Proof.
  eapply (set_branch_not_commit ws_blob_ref "notes"); vm_compute; reflexivity.
Defined.

Lemma create_branch_then_set_branch_witness :
  ∃ b, branch ws_committed = ok (Some b) ∧
    (do create_branch "topic" None in set_branch "topic") ws_committed
    = (ok tt,
       set_index (Some (ObjTree (branch_tree b)))
         (set_head ("refs/heads/" +:+ "topic")
            (set_repo (set_refs (<["refs/heads/" +:+ "topic" := branch_oid b]>
                                   (refs (repo ws_committed)))
                         (repo ws_committed)) ws_committed))) ∧
    (has_changes ((do create_branch "topic" None in set_branch "topic") ws_committed).2).1
    = ok false.
Proof.
  eexists. split; [vm_compute; reflexivity|].
  apply (create_branch_then_set_branch ws_committed "topic"); vm_compute; reflexivity.
Defined.


Lemma commit_on_success_no_rollback_witness :
  with_ (commit_on_success mc0 "draft" None None) add_draft_then_fail ws_committed
  = (fail ValueError, (add_draft_then_fail (has_changes ws_committed).2).2) ∧
  ∀ message' author' committer' (B : Type) (block' : M Workspace B),
    with_ (commit_on_success mc0 message' author' committer') block'
      (add_draft_then_fail (has_changes ws_committed).2).2
    = (fail (RepositoryError
               "Repository has pending changes. Cannot auto-commit until pending changes have been comitted."),
       (has_changes (add_draft_then_fail (has_changes ws_committed).2).2).2).
Proof.
  apply (commit_on_success_no_rollback mc0 ws_committed "draft" None None unit
           add_draft_then_fail ValueError); vm_compute; reflexivity.
Defined.


Lemma walk_all_branch_witness :
  ∃ b, branch ws_committed = ok (Some b) ∧
    match walk_tip (repo ws_committed) (branch_oid b) GIT_SORT_TIME with
    | inl e => ∀ fuel, walk_all walk_tip (S fuel) (walk GIT_SORT_TIME) ws_committed = fail e
    | inr cs =>
        ∀ fuel, List.length cs ≤ fuel →
                walk_all walk_tip (S fuel) (walk GIT_SORT_TIME) ws_committed = ok cs
    end.
Proof.
  eexists. split; [vm_compute; reflexivity|].
  apply (walk_all_branch Z walk_tip ws_committed GIT_SORT_TIME). vm_compute. reflexivity.
Defined.

Lemma build_path_lookup_witness :
  ∃ base root r1,
    Object_oid <$> index ws_dirty = Some base ∧
    git.build_path "docs" [("notes.txt", 1, GIT_FILEMODE_BLOB)] (Some base) (repo ws_dirty)
    = (ok root, r1) ∧
    (∀ name oid mode, (name, oid, mode) ∈ [("notes.txt", 1, GIT_FILEMODE_BLOB)] →
       Tree_bypath r1 root (git.path_segments "docs" ++ [name]) = ok (oid, mode)) ∧
    (∀ (old : Oid) name, Some base = Some old →
       name ∉ [("notes.txt", 1, GIT_FILEMODE_BLOB)].*1.*1 →
       Tree_bypath r1 root (git.path_segments "docs" ++ [name])
       = Tree_bypath (repo ws_dirty) old (git.path_segments "docs" ++ [name])).
Proof.
  eexists _, _, _. split; [vm_compute; reflexivity|]. split; [vm_compute; reflexivity|].
  apply (build_path_lookup (repo ws_dirty) "docs" [("notes.txt", 1, GIT_FILEMODE_BLOB)]).
  - vm_compute. reflexivity.
  - apply NoDup_singleton.
Defined.

Lemma add_blob_spec_witness :
  ∃ blob ws',
    add_blob "docs/readme.txt" "hello" GIT_FILEMODE_BLOB ws_fresh = (ok blob, ws') ∧
    Blob_data (repo ws') blob = ok "hello" ∧
    (∃ t, index ws' = Some (ObjTree t) ∧
          Tree_bypath (repo ws') (tree_oid t)
            (git.path_segments (os_path_split "docs/readme.txt").1
               ++ [(os_path_split "docs/readme.txt").2])
          = ok (blob, GIT_FILEMODE_BLOB)) ∧
    refs (repo ws') = refs (repo ws_fresh) ∧ head ws' = head ws_fresh.
Proof.
  eexists _, _. split; [vm_compute; reflexivity|].
  apply (add_blob_spec ws_fresh "docs/readme.txt" "hello" GIT_FILEMODE_BLOB).
  vm_compute. reflexivity.
Defined.

Lemma operations_keep_integrity_witness :
  (∀ path entries, ws_ok (add path entries ws_dirty).2) ∧
  (∀ path content mode, ws_ok (add_blob path content mode ws_dirty).2) ∧
  (∀ message author committer, ws_ok (commit mc0 message author committer ws_dirty).2) ∧
  (∀ name start_point, ws_ok (create_branch name start_point ws_dirty).2) ∧
  (∀ name, ws_ok (set_branch name ws_dirty).2) ∧
  (∀ message author committer (A : Type) (block : M Workspace A),
     (∀ s, ws_ok s → ws_ok (block s).2) →
     ws_ok (with_ (commit_on_success mc0 message author committer) block ws_dirty).2).
Proof.
  apply (operations_keep_integrity mc0 ws_dirty), ws_ok_check_sound.
  vm_compute. reflexivity.
Defined.
